(** * PyCLIMenu: a shallow embedding of [menu.py] and its verified properties

    The development follows the source file top-down: Python values and
    exceptions, the built-in functions the module calls ([int], [str],
    [format], [math.log], [math.floor], list indexing), the menu item
    classes, [BaseMenu] with [get_selection] and [print], the two
    selection loops [Menu.display] and [OptionMenu.display], and the two
    one-call builders [BasicMenu] and [BasicOptionMenu]. *)

From Stdlib Require Import ZArith String Ascii List Bool Lia.
From Stdlib Require Import Floats Uint63 DecimalString.
Import ListNotations.

Local Open Scope string_scope.
Local Open Scope list_scope.
Local Open Scope Z_scope.

(** ** Python values and exceptions *)

(** The objects that the module stores and prints without looking inside:
    item labels, the menu title and the values carried by option items. *)
Inductive pyobj : Type :=
| PyNone
| PyBool (b : bool)
| PyInt (z : Z)
| PyStr (s : string).

(** The exception classes that the module or the built-ins it calls can
    raise.  [Exception_ cls] stands for any other class, raised by a
    callback; it does not derive from [IndexError]. *)
Inductive exn : Type :=
| IndexError
| ValueError
| TypeError
| AttributeError
| EOFError
| OverflowError
| ZeroDivisionError
| Exception_ (cls : string).

(** The error kinds of the specification, in terms of the classes of the
    code.  The first three are the specification's names for what Python
    raises; the last two name checks that no line of [menu.py] performs. *)
Definition SelectionOutOfRange : exn := IndexError.
Definition EmptyMenu : exn := Exception_ "EmptyMenu".
Definition InvalidArgument : exn := Exception_ "InvalidArgument".

(** ** Built-in functions *)

Module Py.

(** [str(i)] for an [int]. *)
Definition str_of_int (i : Z) : string :=
  NilZero.string_of_int (Z.to_int i).

(** [str(o)], which is also what an f-string field without a format
    specification inserts. *)
Definition str (o : pyobj) : string :=
  match o with
  | PyNone => "None"
  | PyBool true => "True"
  | PyBool false => "False"
  | PyInt z => str_of_int z
  | PyStr s => s
  end.

Fixpoint spaces (n : nat) : string :=
  match n with
  | O => ""
  | S k => String " " (spaces k)
  end.

(** [s.rjust(n)]. *)
Definition rjust (n : nat) (s : string) : string :=
  (spaces (n - String.length s) ++ s)%string.

(** [f"{i:{width}}"], that is [format(i, str(width))].  The
    specification string is the decimal numeral of [width]: a positive
    one is a minimum field width, and integers are right-aligned with
    spaces; ["0"] is the zero-padding flag with no width; a leading
    ["-"] is the default sign option followed by the width. *)
Definition format_int (i width : Z) : string :=
  rjust (Z.abs_nat width) (str_of_int i).

(** *** [int(s)] on a line of text *)

(** The white space that [int] drops around a numeral: tab, line feed,
    vertical tab, form feed, carriage return and the space.  The
    separators 28 to 31 are not among them. *)
Definition is_space (a : ascii) : bool :=
  let n := nat_of_ascii a in
  ((9 <=? n) && (n <=? 13) || (n =? 32))%nat.

Definition is_digit (a : ascii) : bool :=
  let n := nat_of_ascii a in ((48 <=? n) && (n <=? 57))%nat.

Definition digit_val (a : ascii) : Z := Z.of_nat (nat_of_ascii a - 48).

Fixpoint lstrip (l : list ascii) : list ascii :=
  match l with
  | a :: l' => if is_space a then lstrip l' else l
  | [] => []
  end.

Definition strip (l : list ascii) : list ascii :=
  rev (lstrip (rev (lstrip l))).

(** Digits, with single underscores allowed between two digits;
    [pending] records that the previous character was an underscore. *)
Fixpoint digits (pending : bool) (acc : Z) (l : list ascii) : option Z :=
  match l with
  | [] => if pending then None else Some acc
  | a :: l' =>
      if is_digit a then digits false (10 * acc + digit_val a) l'
      else if Ascii.eqb a "_" then
             if pending then None else digits true acc l'
           else None
  end.

(** The interpreter's default limit on the number of digits of a
    decimal numeral ([sys.int_info.default_max_str_digits]); leading
    zeros count, underscores, the sign and white space do not. *)
Definition max_str_digits : nat := 4300.

Definition unsigned (l : list ascii) : option Z :=
  if (List.length (filter is_digit l) <=? max_str_digits)%nat
  then match l with
       | a :: l' => if is_digit a then digits false (digit_val a) l' else None
       | [] => None
       end
  else None.

(** A line of ASCII characters. *)
Definition is_ascii (s : string) : bool :=
  forallb (fun a => (nat_of_ascii a <? 128)%nat) (list_ascii_of_string s).

(** [int(s)] in base ten on a line of ASCII text: surrounding white
    space is dropped, one sign is allowed, then come at most
    [max_str_digits] digits.  [None] is the [ValueError] that [int]
    raises.  A line taken to a number is always ASCII text.  On a line
    with other characters [int] also knows the digits and the white
    space of other scripts, which this function does not: there [None]
    says nothing, and what is stated of refused lines is stated of
    ASCII lines. *)
Definition int (s : string) : option Z :=
  match strip (list_ascii_of_string s) with
  | a :: l' =>
      if Ascii.eqb a "-" then option_map Z.opp (unsigned l')
      else if Ascii.eqb a "+" then unsigned l'
           else unsigned (a :: l')
  | [] => None
  end.

(** *** List subscription *)

(** [l[i]]: a negative index counts from the end of the list, and an
    index that is still outside the list raises [IndexError]. *)
Definition getitem {A : Type} (l : list A) (i : Z) : exn + A :=
  let n := Z.of_nat (List.length l) in
  let j := if i <? 0 then i + n else i in
  if (j <? 0) || (n <=? j) then inl IndexError
  else match nth_error l (Z.to_nat j) with
       | Some x => inr x
       | None => inl IndexError
       end.

(** *** [math.floor] and [math.log] *)

(** [math.floor(x)] for a [float]: the integer below a finite value;
    [OverflowError] on an infinity and [ValueError] on a NaN. *)
Definition floor (x : float) : exn + Z :=
  match Prim2SF x with
  | S754_zero _ => inr 0
  | S754_infinity _ => inl OverflowError
  | S754_nan => inl ValueError
  | S754_finite s m e =>
      inr (Z.shiftl (if s then Z.neg m else Z.pos m) e)
  end.

(** An [int] below [2^63] (every list length is) as a [float]. *)
Definition float_of_int (n : Z) : float :=
  PrimFloat.of_uint63 (Uint63.of_Z n).

Section Log.

(** The C library's [log] on doubles, which CPython calls. *)
Variable libm_log : float -> float.

(** [math.log(x, base)] on two [int]s: a [ValueError] (math domain
    error) unless both are positive, then the quotient of the two
    natural logarithms, computed in double precision. *)
Definition log (x base : Z) : exn + float :=
  if x <=? 0 then inl ValueError
  else if base <=? 0 then inl ValueError
  else
    let num := libm_log (float_of_int x) in
    let den := libm_log (float_of_int base) in
    if PrimFloat.eqb den 0%float then inl ZeroDivisionError
    else inr (PrimFloat.div num den).

End Log.

End Py.

(** ** The module [menu.py] *)

Section Menu.

(** The state of the application that callbacks read and change. *)
Context {W : Type}.

(** The C library's natural logarithm behind [math.log]. *)
Variable libm_log : float -> float.

(** *** Menu items *)

(** A callback is called without arguments; it may change the
    application state, and it returns an object or raises. *)
Definition callable : Type := W -> (exn + pyobj) * W.

(** The three item classes.  Python does not tie a menu to one of them:
    [add_item] takes any item, so a menu holds a list of this union. *)
Inductive item : Type :=
| BaseMenuItem (display : pyobj)
| MenuItem (display : pyobj) (callback : callable)
| OptionMenuItem (display : pyobj) (value : pyobj).

(** [item.display] *)
Definition display_of (it : item) : pyobj :=
  match it with
  | BaseMenuItem d | MenuItem d _ | OptionMenuItem d _ => d
  end.

(** [item.callback] *)
Definition callback_of (it : item) : exn + callable :=
  match it with
  | MenuItem _ cb => inr cb
  | _ => inl AttributeError
  end.

(** [item.value] *)
Definition value_of (it : item) : exn + pyobj :=
  match it with
  | OptionMenuItem _ v => inr v
  | _ => inl AttributeError
  end.

(** The constructor calls [MenuItem(...)] and [OptionMenuItem(...)].
    Both parameters are required: an argument that the call site leaves
    out is [None] here and makes the call raise [TypeError]; an argument
    that is passed, Python's [None] included, is stored as it is. *)
Definition MenuItem_init (display : option pyobj) (callback : option callable)
  : exn + item :=
  match display, callback with
  | Some d, Some cb => inr (MenuItem d cb)
  | _, _ => inl TypeError
  end.

Definition OptionMenuItem_init (display : option pyobj) (value : option pyobj)
  : exn + item :=
  match display, value with
  | Some d, Some v => inr (OptionMenuItem d v)
  | _, _ => inl TypeError
  end.

(** *** [BaseMenu] *)

(** The attributes of a menu object.  [selection_text] is used through
    its [format] method only, applied to the number of items, so the
    attribute is held as that method. *)
Record menu : Type := {
  name : pyobj;
  display_exit : bool;
  menu_items : list item;
  exit_text : string;
  invalid_option_text : string;
  selection_text : Z -> exn + string
}.

Definition default_exit_text : string := "Exit".
Definition default_invalid_option_text : string := "Invalid option".
Definition default_selection_text : Z -> exn + string :=
  fun n => inr ("Please select an option [0-" ++ Py.str_of_int n ++ "]: ")%string.

Definition BaseMenu_init (name : pyobj) (display_exit : bool) : menu :=
  {| name := name;
     display_exit := display_exit;
     menu_items := [];
     exit_text := default_exit_text;
     invalid_option_text := default_invalid_option_text;
     selection_text := default_selection_text |}.

(** [len(self)] *)
Definition len (m : menu) : Z := Z.of_nat (List.length (menu_items m)).

Definition add_item (m : menu) (it : item) : menu :=
  {| name := name m;
     display_exit := display_exit m;
     menu_items := menu_items m ++ [it];
     exit_text := exit_text m;
     invalid_option_text := invalid_option_text m;
     selection_text := selection_text m |}.

Definition add_items (m : menu) (its : list item) : menu :=
  fold_left add_item its m.

(** [get_selection]: the subscription [menu_items[selection - 1]], whose
    [IndexError] is caught and raised again. *)
Definition get_selection (m : menu) (selection : Z) : exn + item :=
  match Py.getitem (menu_items m) (selection - 1) with
  | inr it => inr it
  | inl IndexError => inl IndexError
  | inl e => inl e
  end.

(** *** The console *)

(** What reaches standard output: a [print] call, which ends its text
    with a newline, or the prompt of an [input] call. *)
Inductive event : Type :=
| Out_line (s : string)
| Out_prompt (s : string).

Record console : Type := {
  stdout : list event;
  world : W
}.

(** A computation runs on the console and ends in a value or in an
    exception; what it wrote before raising stays written. *)
Definition M (A : Type) : Type := console -> (exn + A) * console.

Definition ret {A : Type} (a : A) : M A := fun c => (inr a, c).

Definition raise {A : Type} (e : exn) : M A := fun c => (inl e, c).

Definition bind {A B : Type} (x : M A) (f : A -> M B) : M B :=
  fun c =>
    match x c with
    | (inr a, c') => f a c'
    | (inl e, c') => (inl e, c')
    end.

Definition lift {A : Type} (r : exn + A) : M A := fun c => (r, c).

(** [try: body / except IndexError: handler] *)
Definition try_except_IndexError {A : Type} (body handler : M A) : M A :=
  fun c =>
    match body c with
    | (inl IndexError, c') => handler c'
    | r => r
    end.

Definition emit (ev : event) : M unit :=
  fun c => (inr tt, {| stdout := stdout c ++ [ev]; world := world c |}).

(** The built-in [print(s)]. *)
Definition print (s : string) : M unit := emit (Out_line s).

(** Calling a callback. *)
Definition call (cb : callable) : M pyobj :=
  fun c =>
    let (r, w) := cb (world c) in
    (r, {| stdout := stdout c; world := w |}).

Local Notation "x <- c ;; k" := (bind c (fun x => k))
  (at level 61, c at next level, right associativity).
Local Notation "c ;;; k" := (bind c (fun _ => k))
  (at level 61, right associativity).

(** *** [BaseMenu.print] *)

(** [math.floor(math.log(len(self), 10)) + 1] *)
Definition print_width (m : menu) : exn + Z :=
  match Py.log libm_log (len m) 10 with
  | inl e => inl e
  | inr x =>
      match Py.floor x with
      | inl e => inl e
      | inr k => inr (k + 1)
      end
  end.

(** The loop over [enumerate(self.menu_items, start=1)]; [i] is the
    number of the first item of [its]. *)
Fixpoint print_items (width i : Z) (its : list item) : M unit :=
  match its with
  | [] => ret tt
  | it :: rest =>
      print (Py.format_int i width ++ ": " ++ Py.str (display_of it))%string ;;;
      print_items width (i + 1) rest
  end.

Definition newline : string := String (ascii_of_nat 10) EmptyString.

(** [print] calls [math.log] before it writes anything, so a failure
    of the width leaves the console as it was. *)
Definition BaseMenu_print (m : menu) : M unit :=
  width <- lift (print_width m) ;;
  print newline ;;;
  match name m with
  | PyNone => ret tt
  | title => print (Py.str title)
  end ;;;
  print_items width 1 (menu_items m) ;;;
  if display_exit m
  then print (Py.format_int 0 width ++ ": " ++ exit_text m)%string
  else ret tt.

(** *** The selection loops *)

(** How a run of a loop ends: with the returned value or the exception
    that left it, the lines of standard input it did not read, and the
    console as it left it. *)
Record outcome (A : Type) : Type := {
  result : exn + A;
  unread : list string;
  final : console
}.
Arguments result {A} _.
Arguments unread {A} _.
Arguments final {A} _.

Definition finish {A : Type} (r : exn + A) (stdin : list string) (c : console)
  : outcome A :=
  {| result := r; unread := stdin; final := c |}.

(** [Menu.display]: the body of the [try] statement. *)
Definition Menu_try (m : menu) (selection : Z) : M unit :=
  it <- lift (get_selection m selection) ;;
  cb <- lift (callback_of it) ;;
  call cb ;;;
  ret tt.

(** One turn of the body of the [while] statement of [Menu.display]. *)
Definition Menu_body (m : menu) (selection : Z) : M unit :=
  try_except_IndexError (Menu_try m selection)
                        (print (invalid_option_text m)) ;;;
  BaseMenu_print m.

(** The [while] statement of [Menu.display].  Its condition formats the
    prompt, calls [input], which writes the prompt and takes one line
    from standard input or raises [EOFError], then calls [int] on the
    line, and compares with [0]. *)
Fixpoint Menu_loop (m : menu) (stdin : list string) (c : console)
  : outcome unit :=
  match selection_text m (len m) with
  | inl e => finish (inl e) stdin c
  | inr prompt =>
      let c1 := snd (emit (Out_prompt prompt) c) in
      match stdin with
      | [] => finish (inl EOFError) [] c1
      | line :: rest =>
          match Py.int line with
          | None => finish (inl ValueError) rest c1
          | Some selection =>
              if selection =? 0 then finish (inr tt) rest c1
              else
                match Menu_body m selection c1 with
                | (inl e, c2) => finish (inl e) rest c2
                | (inr _, c2) => Menu_loop m rest c2
                end
          end
      end
  end.

Definition Menu_init (name : pyobj) : menu := BaseMenu_init name true.

Definition Menu_display (m : menu) (stdin : list string) (c : console)
  : outcome unit :=
  match BaseMenu_print m c with
  | (inl e, c') => finish (inl e) stdin c'
  | (inr _, c') => Menu_loop m stdin c'
  end.

(** [OptionMenu.display]: the body of the [try] statement, which ends
    in [return item.value]; [Some v] is that [return v]. *)
Definition OptionMenu_try (m : menu) (selection : Z) : M (option pyobj) :=
  it <- lift (get_selection m selection) ;;
  v <- lift (value_of it) ;;
  ret (Some v).

(** The [try] statement with its handler; [None] is the end of the
    handler, after which the loop body goes on. *)
Definition OptionMenu_body (m : menu) (selection : Z) : M (option pyobj) :=
  try_except_IndexError (OptionMenu_try m selection)
                        (print (invalid_option_text m) ;;; ret None).

(** The [while] statement of [OptionMenu.display]; leaving it through
    the selection [0] is the end of the method, which returns [None]. *)
Fixpoint OptionMenu_loop (m : menu) (stdin : list string) (c : console)
  : outcome pyobj :=
  match selection_text m (len m) with
  | inl e => finish (inl e) stdin c
  | inr prompt =>
      let c1 := snd (emit (Out_prompt prompt) c) in
      match stdin with
      | [] => finish (inl EOFError) [] c1
      | line :: rest =>
          match Py.int line with
          | None => finish (inl ValueError) rest c1
          | Some selection =>
              if selection =? 0 then finish (inr PyNone) rest c1
              else
                match OptionMenu_body m selection c1 with
                | (inl e, c2) => finish (inl e) rest c2
                | (inr (Some v), c2) => finish (inr v) rest c2
                | (inr None, c2) =>
                    match BaseMenu_print m c2 with
                    | (inl e, c3) => finish (inl e) rest c3
                    | (inr _, c3) => OptionMenu_loop m rest c3
                    end
                end
          end
      end
  end.

Definition OptionMenu_init (name : pyobj) : menu := BaseMenu_init name false.

Definition OptionMenu_display (m : menu) (stdin : list string) (c : console)
  : outcome pyobj :=
  match BaseMenu_print m c with
  | (inl e, c') => finish (inl e) stdin c'
  | (inr _, c') => OptionMenu_loop m stdin c'
  end.

(** *** The builders *)

(** A [dict] argument: the pairs of [items.items()] in insertion order,
    or Python's [None], the declared default, which has no [items]
    attribute. *)
Definition dict (V : Type) : Type := option (list (pyobj * V)).

Definition dict_items {V : Type} (d : dict V) : exn + list (pyobj * V) :=
  match d with
  | Some kvs => inr kvs
  | None => inl AttributeError
  end.

(** [BasicMenu(name, items)]: the constructor runs the whole session,
    and the new object is its value. *)
Definition BasicMenu_init (name : pyobj) (items : dict callable)
           (stdin : list string) (c : console) : outcome menu :=
  let self := Menu_init name in
  match dict_items items with
  | inl e => finish (inl e) stdin c
  | inr kvs =>
      let self := add_items self (map (fun kv => MenuItem (fst kv) (snd kv)) kvs) in
      let o := Menu_display self stdin c in
      match result o with
      | inl e => finish (inl e) (unread o) (final o)
      | inr _ => finish (inr self) (unread o) (final o)
      end
  end.

(** [BasicOptionMenu(name, items)]: the new object and its attribute
    [selection]. *)
Definition BasicOptionMenu_init (name : pyobj) (items : dict pyobj)
           (stdin : list string) (c : console) : outcome (menu * pyobj) :=
  let self := OptionMenu_init name in
  match dict_items items with
  | inl e => finish (inl e) stdin c
  | inr kvs =>
      let self := add_items self (map (fun kv => OptionMenuItem (fst kv) (snd kv)) kvs) in
      let o := OptionMenu_display self stdin c in
      match result o with
      | inl e => finish (inl e) (unread o) (final o)
      | inr selection => finish (inr (self, selection)) (unread o) (final o)
      end
  end.

End Menu.

Arguments callable W : clear implicits.
Arguments item W : clear implicits.
Arguments menu W : clear implicits.
Arguments console W : clear implicits.
Arguments M W A : clear implicits.
Arguments outcome W A : clear implicits.
Arguments result {W A} _.
Arguments unread {W A} _.
Arguments final {W A} _.

(** ** What [print] writes *)

Section Rendering.

Context {W : Type}.

(** The lines of the loop over the items, numbered from [i]. *)
Fixpoint item_lines (width i : Z) (its : list (item W)) : list string :=
  match its with
  | [] => []
  | it :: rest =>
      (Py.format_int i width ++ ": " ++ Py.str (display_of it))%string
        :: item_lines width (i + 1) rest
  end.

(** The lines of a menu whose index column has the given width. *)
Definition menu_lines (m : menu W) (width : Z) : list string :=
  newline
    :: match name m with PyNone => [] | title => [Py.str title] end
    ++ item_lines width 1 (menu_items m)
    ++ (if display_exit m
        then [(Py.format_int 0 width ++ ": " ++ exit_text m)%string]
        else []).

(** The console after some more events. *)
Definition after (c : console W) (evs : list event) : console W :=
  {| stdout := stdout c ++ evs; world := world c |}.

(** Standard output is only ever appended to. *)
Definition extends (c c' : console W) : Prop :=
  exists evs, stdout c' = stdout c ++ evs.

Definition appends {A : Type} (x : M W A) : Prop :=
  forall c, extends c (snd (x c)).

(** The number of decimal digits of a positive index. *)
Definition decimal_width (n : Z) : Z :=
  Z.of_nat (String.length (Py.str_of_int n)).

End Rendering.

(** ** Sample data *)

(** The C library's [log] at the arguments that the examples below reach
    (the correctly rounded natural logarithms of 1, 2, 9, 10 and 1000, as
    glibc returns them); NaN stands for every other argument. *)
Definition log_table (x : float) : float :=
  if PrimFloat.eqb x 1%float then 0%float
  else if PrimFloat.eqb x 2%float then 0x1.62e42fefa39efp-1%float
  else if PrimFloat.eqb x 9%float then 0x1.193ea7aad030bp+1%float
  else if PrimFloat.eqb x 10%float then 0x1.26bb1bbb55516p+1%float
  else if PrimFloat.eqb x 1000%float then 0x1.ba18a998fffa0p+2%float
  else PrimFloat.nan.

(** A callback that counts its calls in the application state. *)
Definition incrementCounter : callable nat :=
  fun n => (inr PyNone, S n).

Definition ab_items : dict (callable nat) :=
  Some [(PyStr "A", incrementCounter); (PyStr "B", incrementCounter)].

Definition ab_menu : menu nat :=
  add_items (Menu_init (PyStr "Counter"))
            [MenuItem (PyStr "A") incrementCounter;
             MenuItem (PyStr "B") incrementCounter].

Definition red_blue_items : dict pyobj :=
  Some [(PyStr "Red", PyStr "R"); (PyStr "Blue", PyStr "B")].

Definition red_blue_menu : menu unit :=
  add_items (OptionMenu_init PyNone)
            [OptionMenuItem (PyStr "Red") (PyStr "R");
             OptionMenuItem (PyStr "Blue") (PyStr "B")].

(** An option menu one of whose items stores [None]. *)
Definition none_menu : menu unit :=
  add_items (OptionMenu_init PyNone)
            [OptionMenuItem (PyStr "Nothing") PyNone].

(** A callback that counts its call and then raises. *)
Definition raising (e : exn) : callable nat :=
  fun n => (inl e, S n).

Definition raising_menu (e : exn) : menu nat :=
  add_items (Menu_init PyNone) [MenuItem (PyStr "Fail") (raising e)].

(** A menu of [n] items. *)
Definition menu_of_size (n : nat) : menu unit :=
  add_items (Menu_init PyNone) (repeat (BaseMenuItem (PyStr "x")) n).

Definition empty_console {W : Type} (w : W) : console W :=
  {| stdout := []; world := w |}.


(** * Properties *)

(** ** List subscription and [get_selection] *)

Section Selection.

Context {W : Type}.
Implicit Types (m : menu W) (it : item W).

Lemma getitem_in_range {A : Type} (l : list A) (i : Z) :
  0 <= i < Z.of_nat (List.length l) ->
  exists x, nth_error l (Z.to_nat i) = Some x /\ Py.getitem l i = inr x.
Proof.
  intros Hi. unfold Py.getitem.
  destruct (Z.ltb_spec i 0) as [Hneg|_]; [lia|].
  destruct (Z.ltb_spec i 0) as [Hneg|_]; [lia|].
  destruct (Z.leb_spec (Z.of_nat (List.length l)) i) as [Hbig|_]; [lia|].
  cbn [orb].
  destruct (nth_error l (Z.to_nat i)) as [x|] eqn:E.
  - exists x. split; reflexivity.
  - apply nth_error_None in E. lia.
Qed.

Lemma getitem_above {A : Type} (l : list A) (i : Z) :
  Z.of_nat (List.length l) <= i -> Py.getitem l i = inl IndexError.
Proof.
  intros Hi. unfold Py.getitem.
  destruct (Z.ltb_spec i 0) as [Hneg|_]; [lia|].
  destruct (Z.ltb_spec i 0) as [Hneg|_]; [lia|].
  destruct (Z.leb_spec (Z.of_nat (List.length l)) i) as [_|Hsmall]; [|lia].
  reflexivity.
Qed.

(** A negative index inside the list is the index counted from the end. *)
Lemma getitem_wraps {A : Type} (l : list A) (i : Z) :
  - Z.of_nat (List.length l) <= i < 0 ->
  Py.getitem l i = Py.getitem l (i + Z.of_nat (List.length l)).
Proof.
  intros Hi. unfold Py.getitem. cbv zeta.
  assert (E1 : (i <? 0) = true) by (apply Z.ltb_lt; lia).
  assert (E2 : (i + Z.of_nat (List.length l) <? 0) = false)
    by (apply Z.ltb_ge; lia).
  rewrite E1. cbv iota. rewrite !E2. reflexivity.
Qed.

Lemma getitem_below {A : Type} (l : list A) (i : Z) :
  i < - Z.of_nat (List.length l) -> Py.getitem l i = inl IndexError.
Proof.
  intros Hi. unfold Py.getitem. cbv zeta.
  assert (E1 : (i <? 0) = true) by (apply Z.ltb_lt; lia).
  assert (E2 : (i + Z.of_nat (List.length l) <? 0) = true)
    by (apply Z.ltb_lt; lia).
  rewrite E1. cbv iota. rewrite !E2. reflexivity.
Qed.

Lemma get_selection_getitem m selection :
  get_selection m selection = Py.getitem (menu_items m) (selection - 1).
Proof.
  unfold get_selection.
  destruct (Py.getitem (menu_items m) (selection - 1)) as [[]|]; reflexivity.
Qed.

(** A selection between [1] and the number of items is answered with
    the item added at that place. *)
Lemma get_selection_in_range m selection :
  1 <= selection <= len m ->
  exists it, nth_error (menu_items m) (Z.to_nat (selection - 1)) = Some it
             /\ get_selection m selection = inr it.
Proof.
  intros H. rewrite get_selection_getitem.
  apply getitem_in_range. unfold len in H. lia.
Qed.

Lemma get_selection_above m selection :
  len m < selection -> get_selection m selection = inl SelectionOutOfRange.
Proof.
  intros H. rewrite get_selection_getitem.
  apply getitem_above. unfold len in H. lia.
Qed.

(** A selection from [1 - len m] to [0] is not refused: it is answered
    like the selection [len m] places above it. *)
Lemma get_selection_wraps m selection :
  - len m < selection <= 0 ->
  get_selection m selection = get_selection m (selection + len m).
Proof.
  intros H. rewrite !get_selection_getitem.
  rewrite getitem_wraps by (unfold len in H; lia).
  f_equal. unfold len. lia.
Qed.

Lemma get_selection_below m selection :
  selection <= - len m -> get_selection m selection = inl SelectionOutOfRange.
Proof.
  intros H. rewrite get_selection_getitem.
  apply getitem_below. unfold len in H. lia.
Qed.

Lemma get_selection_raises_only_IndexError m selection e :
  get_selection m selection = inl e -> e = IndexError.
Proof.
  rewrite get_selection_getitem. unfold Py.getitem.
  destruct (_ || _); [congruence|].
  destruct (nth_error _ _); congruence.
Qed.

End Selection.

(** ** [BaseMenu.print] *)

Section Printing.

Context {W : Type}.
Variable libm_log : float -> float.
Implicit Types (m : menu W) (c : console W).

Lemma after_nil c : after c [] = c.
Proof. destruct c. unfold after. cbn. now rewrite app_nil_r. Qed.

Lemma after_after c evs evs' :
  after (after c evs) evs' = after c (evs ++ evs').
Proof. unfold after. cbn. now rewrite app_assoc. Qed.

Lemma print_after s c : print s c = (inr tt, after c [Out_line s]).
Proof. reflexivity. Qed.

Lemma print_items_after width its :
  forall i c,
    print_items width i its c
    = (inr tt, after c (map Out_line (item_lines width i its))).
Proof.
  induction its as [|it rest IH]; intros i c; cbn [print_items item_lines map].
  - unfold ret. now rewrite after_nil.
  - unfold bind. rewrite print_after, IH, after_after. reflexivity.
Qed.

(** With no item the width cannot be computed: [math.log] refuses [0]. *)
Lemma print_width_empty m :
  len m = 0 -> print_width libm_log m = inl ValueError.
Proof. intros H. unfold print_width, Py.log. now rewrite H. Qed.

Lemma print_width_nonempty m w :
  print_width libm_log m = inr w -> 1 <= len m.
Proof.
  unfold print_width, Py.log. intros H.
  destruct (Z.leb_spec (len m) 0); [discriminate|lia].
Qed.

(** A failure of the width is the failure of [print], and nothing has
    been written by then. *)
Lemma BaseMenu_print_raises m e c :
  print_width libm_log m = inl e ->
  BaseMenu_print libm_log m c = (inl e, c).
Proof. intros H. unfold BaseMenu_print, bind, lift. now rewrite H. Qed.

(** Otherwise [print] writes the lines of the menu and ends normally. *)
Lemma BaseMenu_print_ok m w c :
  print_width libm_log m = inr w ->
  BaseMenu_print libm_log m c
  = (inr tt, after c (map Out_line (menu_lines m w))).
Proof.
  intros H. unfold BaseMenu_print, bind, lift. rewrite H.
  rewrite print_after. unfold menu_lines.
  set (c1 := after c [Out_line newline]).
  assert (Htitle :
            (match name m with PyNone => ret tt | title => print (Py.str title) end) c1
            = (inr tt, after c1 (map Out_line
                                     match name m with
                                     | PyNone => []
                                     | title => [Py.str title]
                                     end))).
  { destruct (name m); cbn [map]; try apply print_after.
    unfold ret. now rewrite after_nil. }
  rewrite Htitle, print_items_after.
  destruct (display_exit m).
  - rewrite print_after. subst c1. rewrite !after_after.
    cbn [map app]. rewrite !map_app. reflexivity.
  - unfold ret. subst c1. rewrite !after_after.
    cbn [map app]. rewrite !map_app, app_nil_r. reflexivity.
Qed.

End Printing.

(** ** The selection loops *)

Section Loops.

Context {W : Type}.
Variable libm_log : float -> float.
Implicit Types (m : menu W) (c : console W) (stdin rest : list string).

(** *** One turn of each loop *)

Lemma Menu_loop_step m line rest c p :
  selection_text m (len m) = inr p ->
  Menu_loop libm_log m (line :: rest) c
  = let c1 := after c [Out_prompt p] in
    match Py.int line with
    | None => finish (inl ValueError) rest c1
    | Some selection =>
        if selection =? 0 then finish (inr tt) rest c1
        else match Menu_body libm_log m selection c1 with
             | (inl e, c2) => finish (inl e) rest c2
             | (inr _, c2) => Menu_loop libm_log m rest c2
             end
    end.
Proof. intros H. cbn [Menu_loop]. rewrite H. reflexivity. Qed.

Lemma OptionMenu_loop_step m line rest c p :
  selection_text m (len m) = inr p ->
  OptionMenu_loop libm_log m (line :: rest) c
  = let c1 := after c [Out_prompt p] in
    match Py.int line with
    | None => finish (inl ValueError) rest c1
    | Some selection =>
        if selection =? 0 then finish (inr PyNone) rest c1
        else match OptionMenu_body m selection c1 with
             | (inl e, c2) => finish (inl e) rest c2
             | (inr (Some v), c2) => finish (inr v) rest c2
             | (inr None, c2) =>
                 match BaseMenu_print libm_log m c2 with
                 | (inl e, c3) => finish (inl e) rest c3
                 | (inr _, c3) => OptionMenu_loop libm_log m rest c3
                 end
             end
    end.
Proof. intros H. cbn [OptionMenu_loop]. rewrite H. reflexivity. Qed.

Lemma Menu_loop_eof m c p :
  selection_text m (len m) = inr p ->
  Menu_loop libm_log m [] c = finish (inl EOFError) [] (after c [Out_prompt p]).
Proof. intros H. cbn [Menu_loop]. rewrite H. reflexivity. Qed.

Lemma OptionMenu_loop_eof m c p :
  selection_text m (len m) = inr p ->
  OptionMenu_loop libm_log m [] c
  = finish (inl EOFError) [] (after c [Out_prompt p]).
Proof. intros H. cbn [OptionMenu_loop]. rewrite H. reflexivity. Qed.

(** *** The [try] statements *)

Lemma Menu_try_out_of_range m selection c :
  len m < selection -> Menu_try m selection c = (inl IndexError, c).
Proof.
  intros H. unfold Menu_try, bind, lift.
  now rewrite get_selection_above.
Qed.

Lemma OptionMenu_try_out_of_range m selection c :
  len m < selection -> OptionMenu_try m selection c = (inl IndexError, c).
Proof.
  intros H. unfold OptionMenu_try, bind, lift.
  now rewrite get_selection_above.
Qed.

Lemma Menu_body_out_of_range m selection c w :
  len m < selection ->
  print_width libm_log m = inr w ->
  Menu_body libm_log m selection c
  = (inr tt, after c (Out_line (invalid_option_text m)
                        :: map Out_line (menu_lines m w))).
Proof.
  intros Hsel Hw. unfold Menu_body, bind, try_except_IndexError.
  rewrite Menu_try_out_of_range by assumption.
  rewrite print_after, (BaseMenu_print_ok _ _ w) by assumption.
  now rewrite after_after.
Qed.

Lemma OptionMenu_body_out_of_range m selection c :
  len m < selection ->
  OptionMenu_body m selection c
  = (inr None, after c [Out_line (invalid_option_text m)]).
Proof.
  intros Hsel. unfold OptionMenu_body, try_except_IndexError.
  rewrite OptionMenu_try_out_of_range by assumption. reflexivity.
Qed.

Lemma OptionMenu_body_valid m selection it v c :
  get_selection m selection = inr it ->
  value_of it = inr v ->
  OptionMenu_body m selection c = (inr (Some v), c).
Proof.
  intros Hit Hv.
  unfold OptionMenu_body, try_except_IndexError, OptionMenu_try, bind, lift.
  now rewrite Hit, Hv.
Qed.

(** An exception of another class than [IndexError] passes through the
    [try] statement. *)
Lemma try_except_IndexError_passes {A : Type} (body handler : M W A) c e c' :
  body c = (inl e, c') -> e <> IndexError ->
  try_except_IndexError body handler c = (inl e, c').
Proof.
  intros H Hne. unfold try_except_IndexError. rewrite H.
  destruct e; congruence.
Qed.

(** *** Output is appended to, never rewritten *)

Lemma extends_refl c : extends c c.
Proof. exists []. now rewrite app_nil_r. Qed.

Lemma extends_trans c1 c2 c3 : extends c1 c2 -> extends c2 c3 -> extends c1 c3.
Proof.
  intros [e1 H1] [e2 H2]. exists (e1 ++ e2).
  now rewrite H2, H1, app_assoc.
Qed.

Lemma extends_after c evs : extends c (after c evs).
Proof. now exists evs. Qed.

Lemma appends_lift {A : Type} (r : exn + A) : appends (W := W) (lift r).
Proof. intros c. apply extends_refl. Qed.

Lemma appends_ret {A : Type} (a : A) : appends (W := W) (ret a).
Proof. intros c. apply extends_refl. Qed.

Lemma appends_print s : appends (W := W) (print s).
Proof. intros c. apply extends_after. Qed.

Lemma appends_call (cb : callable W) : appends (call cb).
Proof.
  intros c. unfold call. destruct (cb (world c)) as [r w].
  exists []. cbn. now rewrite app_nil_r.
Qed.

Lemma appends_bind {A B : Type} (x : M W A) (f : A -> M W B) :
  appends x -> (forall a, appends (f a)) -> appends (bind x f).
Proof.
  intros Hx Hf c. unfold bind. specialize (Hx c).
  destruct (x c) as [[e|a] c']; cbn [snd] in *.
  - exact Hx.
  - eapply extends_trans; [exact Hx|apply Hf].
Qed.

Lemma appends_try {A : Type} (body handler : M W A) :
  appends body -> appends handler ->
  appends (try_except_IndexError body handler).
Proof.
  intros Hb Hh c. unfold try_except_IndexError. specialize (Hb c).
  destruct (body c) as [[e|a] c']; cbn [snd] in *; [|exact Hb].
  destruct e; try exact Hb.
  eapply extends_trans; [exact Hb|apply Hh].
Qed.

Lemma appends_BaseMenu_print m : appends (BaseMenu_print libm_log m).
Proof.
  intros c. destruct (print_width libm_log m) as [e|w] eqn:E.
  - rewrite (BaseMenu_print_raises _ _ e) by assumption. apply extends_refl.
  - rewrite (BaseMenu_print_ok _ _ w) by assumption. apply extends_after.
Qed.

Lemma appends_Menu_body m selection : appends (Menu_body libm_log m selection).
Proof.
  unfold Menu_body. apply appends_bind; [|intros _; apply appends_BaseMenu_print].
  apply appends_try; [|apply appends_print].
  unfold Menu_try.
  apply appends_bind; [apply appends_lift|intros it].
  apply appends_bind; [apply appends_lift|intros cb].
  apply appends_bind; [apply appends_call|intros _; apply appends_ret].
Qed.

Lemma appends_OptionMenu_body m selection : appends (OptionMenu_body m selection).
Proof.
  unfold OptionMenu_body. apply appends_try.
  - unfold OptionMenu_try.
    apply appends_bind; [apply appends_lift|intros it].
    apply appends_bind; [apply appends_lift|intros v; apply appends_ret].
  - apply appends_bind; [apply appends_print|intros _; apply appends_ret].
Qed.

Lemma Menu_loop_extends m stdin :
  forall c, extends c (final (Menu_loop libm_log m stdin c)).
Proof.
  induction stdin as [|line rest IH]; intros c.
  - cbn [Menu_loop]. destruct (selection_text m (len m)); cbn.
    + apply extends_refl.
    + apply extends_after.
  - destruct (selection_text m (len m)) as [e|p] eqn:E.
    + cbn [Menu_loop]. rewrite E. apply extends_refl.
    + rewrite (Menu_loop_step _ _ _ _ p) by assumption. cbv zeta.
      destruct (Py.int line) as [selection|]; [|apply extends_after].
      destruct (selection =? 0); [apply extends_after|].
      pose proof (appends_Menu_body m selection (after c [Out_prompt p])) as Hb.
      destruct (Menu_body _ _ _ _) as [[e|u] c2]; cbn [snd final finish] in *.
      * eapply extends_trans; [apply extends_after|exact Hb].
      * eapply extends_trans; [apply extends_after|].
        eapply extends_trans; [exact Hb|apply IH].
Qed.

Lemma OptionMenu_loop_extends m stdin :
  forall c, extends c (final (OptionMenu_loop libm_log m stdin c)).
Proof.
  induction stdin as [|line rest IH]; intros c.
  - cbn [OptionMenu_loop]. destruct (selection_text m (len m)); cbn.
    + apply extends_refl.
    + apply extends_after.
  - destruct (selection_text m (len m)) as [e|p] eqn:E.
    + cbn [OptionMenu_loop]. rewrite E. apply extends_refl.
    + rewrite (OptionMenu_loop_step _ _ _ _ p) by assumption. cbv zeta.
      destruct (Py.int line) as [selection|]; [|apply extends_after].
      destruct (selection =? 0); [apply extends_after|].
      pose proof (appends_OptionMenu_body m selection (after c [Out_prompt p]))
        as Hb.
      destruct (OptionMenu_body _ _ _) as [[e|[v|]] c2];
        cbn [snd final finish] in *;
        try (eapply extends_trans; [apply extends_after|exact Hb]).
      pose proof (appends_BaseMenu_print m c2) as Hp.
      destruct (BaseMenu_print _ _ _) as [[e|u] c3]; cbn [snd final finish] in *.
      * eapply extends_trans; [apply extends_after|].
        eapply extends_trans; [exact Hb|exact Hp].
      * eapply extends_trans; [apply extends_after|].
        eapply extends_trans; [exact Hb|].
        eapply extends_trans; [exact Hp|apply IH].
Qed.

(** Whatever the input, the first thing a loop does is to prompt. *)
Lemma Menu_loop_prompts m stdin c p :
  selection_text m (len m) = inr p ->
  exists evs,
    stdout (final (Menu_loop libm_log m stdin c))
    = stdout c ++ Out_prompt p :: evs.
Proof.
  intros H. destruct stdin as [|line rest].
  - rewrite (Menu_loop_eof _ _ p) by assumption. now exists [].
  - rewrite (Menu_loop_step _ _ _ _ p) by assumption. cbv zeta.
    destruct (Py.int line) as [selection|]; [|now exists []].
    destruct (selection =? 0); [now exists []|].
    pose proof (appends_Menu_body m selection (after c [Out_prompt p])) as Hb.
    destruct (Menu_body _ _ _ _) as [[e|u] c2]; cbn [snd final finish] in *.
    + destruct Hb as [evs Hb]. exists evs. rewrite Hb. cbn.
      now rewrite <- app_assoc.
    + destruct Hb as [evs Hb].
      destruct (Menu_loop_extends m rest c2) as [evs' Hl].
      exists (evs ++ evs'). rewrite Hl, Hb. cbn.
      now rewrite <- !app_assoc.
Qed.

Lemma OptionMenu_loop_prompts m stdin c p :
  selection_text m (len m) = inr p ->
  exists evs,
    stdout (final (OptionMenu_loop libm_log m stdin c))
    = stdout c ++ Out_prompt p :: evs.
Proof.
  intros H. destruct stdin as [|line rest].
  - rewrite (OptionMenu_loop_eof _ _ p) by assumption. now exists [].
  - rewrite (OptionMenu_loop_step _ _ _ _ p) by assumption. cbv zeta.
    destruct (Py.int line) as [selection|]; [|now exists []].
    destruct (selection =? 0); [now exists []|].
    pose proof (appends_OptionMenu_body m selection (after c [Out_prompt p]))
      as Hb.
    destruct Hb as [evs Hb].
    destruct (OptionMenu_body _ _ _) as [[e|[v|]] c2];
      cbn [snd final finish] in *;
      try (exists evs; rewrite Hb; cbn; now rewrite <- app_assoc).
    pose proof (appends_BaseMenu_print m c2) as [evs1 Hp].
    destruct (BaseMenu_print _ _ _) as [[e|u] c3]; cbn [snd final finish] in *.
    + exists (evs ++ evs1). rewrite Hp, Hb. cbn. now rewrite <- !app_assoc.
    + destruct (OptionMenu_loop_extends m rest c3) as [evs2 Hl].
      exists (evs ++ evs1 ++ evs2). rewrite Hl, Hp, Hb. cbn.
      now rewrite <- !app_assoc.
Qed.

End Loops.

(** ** Sessions *)

Section Sessions.

Context {W : Type}.
Variable libm_log : float -> float.
Implicit Types (m : menu W) (c : console W) (stdin rest : list string).

Lemma Menu_display_ok m stdin c w :
  print_width libm_log m = inr w ->
  Menu_display libm_log m stdin c
  = Menu_loop libm_log m stdin (after c (map Out_line (menu_lines m w))).
Proof.
  intros H. unfold Menu_display.
  now rewrite (BaseMenu_print_ok _ _ w) by assumption.
Qed.

Lemma OptionMenu_display_ok m stdin c w :
  print_width libm_log m = inr w ->
  OptionMenu_display libm_log m stdin c
  = OptionMenu_loop libm_log m stdin (after c (map Out_line (menu_lines m w))).
Proof.
  intros H. unfold OptionMenu_display.
  now rewrite (BaseMenu_print_ok _ _ w) by assumption.
Qed.

(** An empty menu ends both [display] methods in [print], before any
    prompt. *)
Lemma display_empty_menu m stdin c :
  len m = 0 ->
  Menu_display libm_log m stdin c = finish (inl ValueError) stdin c
  /\ OptionMenu_display libm_log m stdin c = finish (inl ValueError) stdin c.
Proof.
  intros H. apply (print_width_empty libm_log) in H.
  unfold Menu_display, OptionMenu_display.
  rewrite (BaseMenu_print_raises _ _ ValueError) by assumption. now split.
Qed.

(** The value loop on a valid selection, from any console. *)
Lemma OptionMenu_loop_valid m line rest c p i it v :
  selection_text m (len m) = inr p ->
  Py.int line = Some i ->
  1 <= i <= len m ->
  nth_error (menu_items m) (Z.to_nat (i - 1)) = Some it ->
  value_of it = inr v ->
  OptionMenu_loop libm_log m (line :: rest) c
  = finish (inr v) rest (after c [Out_prompt p]).
Proof.
  intros Hp Hline Hi Hnth Hv.
  rewrite (OptionMenu_loop_step _ _ _ _ _ p) by assumption. cbv zeta.
  rewrite Hline.
  destruct (Z.eqb_spec i 0) as [->|_]; [lia|].
  destruct (get_selection_in_range m i Hi) as (it' & Hnth' & Hsel).
  assert (it' = it) by congruence. subst it'.
  now rewrite (OptionMenu_body_valid _ _ it v) by assumption.
Qed.

(** C2 (as amended).  In the value loop the selection [0] ends the
    session although the menu was printed without an exit line; the
    method then returns [None], and a session that selects an item
    whose stored value is [None] ends in the very same outcome. *)
Theorem OptionMenu_display_zero_returns_None m line rest c p w :
  print_width libm_log m = inr w ->
  selection_text m (len m) = inr p ->
  display_exit m = false ->
  Py.int line = Some 0 ->
  let lines := newline
                 :: match name m with PyNone => [] | t => [Py.str t] end
                 ++ item_lines w 1 (menu_items m) in
  let o := finish (inr PyNone) rest
                  (after c (map Out_line lines ++ [Out_prompt p])) in
  OptionMenu_display libm_log m (line :: rest) c = o
  /\ forall line' i d,
      Py.int line' = Some i ->
      1 <= i <= len m ->
      nth_error (menu_items m) (Z.to_nat (i - 1)) = Some (OptionMenuItem d PyNone) ->
      OptionMenu_display libm_log m (line' :: rest) c = o.
Proof.
  intros Hw Hp Hexit Hline lines o.
  assert (Hlines : menu_lines m w = lines).
  { unfold menu_lines, lines. rewrite Hexit. now rewrite app_nil_r. }
  split.
  - rewrite (OptionMenu_display_ok _ _ _ w) by assumption.
    rewrite (OptionMenu_loop_step _ _ _ _ _ p) by assumption. cbv zeta.
    rewrite Hline. cbn [Z.eqb]. rewrite after_after, Hlines. reflexivity.
  - intros line' i d Hline' Hi Hnth.
    rewrite (OptionMenu_display_ok _ _ _ w) by assumption.
    rewrite (OptionMenu_loop_valid _ _ _ _ p i (OptionMenuItem d PyNone) PyNone)
      by (assumption || reflexivity).
    rewrite after_after, Hlines. reflexivity.
Qed.

(** C4 (as amended).  [print] on a menu without items fails before it
    writes anything, and the failure is the [ValueError] with which
    [math.log] refuses the argument [0]; no check of its own stands
    before that call. *)
Theorem print_empty_menu_raises_ValueError m c :
  len m = 0 ->
  BaseMenu_print libm_log m c = (inl ValueError, c)
  /\ Py.log libm_log (len m) 10 = inl ValueError.
Proof.
  intros H. split.
  - apply BaseMenu_print_raises. now apply print_width_empty.
  - unfold Py.log. now rewrite H.
Qed.


(** The same at the level of the two [display] methods, when the
    offending line is the first one. *)
Lemma display_unparsable_input m line rest c p w :
  print_width libm_log m = inr w ->
  selection_text m (len m) = inr p ->
  Py.is_ascii line = true ->
  Py.int line = None ->
  let c' := after c (map Out_line (menu_lines m w) ++ [Out_prompt p]) in
  Menu_display libm_log m (line :: rest) c = finish (inl ValueError) rest c'
  /\ OptionMenu_display libm_log m (line :: rest) c
     = finish (inl ValueError) rest c'.
Proof.
  intros Hw Hp _ Hline c'. subst c'.
  rewrite (Menu_display_ok _ _ _ w), (OptionMenu_display_ok _ _ _ w)
    by assumption.
  rewrite (Menu_loop_step _ _ _ _ _ p), (OptionMenu_loop_step _ _ _ _ _ p)
    by assumption.
  cbv zeta. rewrite Hline, after_after. now split.
Qed.

(** C6.  A selection above the number of items is answered, in either
    variant, by the invalid-option line and a fresh print of the menu,
    after which the loop runs on with the rest of the input and starts
    by prompting again; no exception leaves that turn.  [IndexError] is
    the only class handled: an exception of any other class raised in
    the [try] statement is the result of the loop. *)
Theorem out_of_range_selection_reprompts m line rest c p w selection :
  selection_text m (len m) = inr p ->
  print_width libm_log m = inr w ->
  Py.int line = Some selection ->
  len m < selection ->
  let c' := after c (Out_prompt p
                       :: Out_line (invalid_option_text m)
                       :: map Out_line (menu_lines m w)) in
  (Menu_loop libm_log m (line :: rest) c = Menu_loop libm_log m rest c'
   /\ exists evs,
       stdout (final (Menu_loop libm_log m rest c'))
       = stdout c' ++ Out_prompt p :: evs)
  /\ (OptionMenu_loop libm_log m (line :: rest) c
      = OptionMenu_loop libm_log m rest c'
      /\ exists evs,
          stdout (final (OptionMenu_loop libm_log m rest c'))
          = stdout c' ++ Out_prompt p :: evs)
  /\ forall line' selection' e c2,
      Py.int line' = Some selection' ->
      selection' <> 0 ->
      e <> SelectionOutOfRange ->
      (Menu_try m selection' (after c [Out_prompt p]) = (inl e, c2) ->
       Menu_loop libm_log m (line' :: rest) c = finish (inl e) rest c2)
      /\ (OptionMenu_try m selection' (after c [Out_prompt p]) = (inl e, c2) ->
          OptionMenu_loop libm_log m (line' :: rest) c = finish (inl e) rest c2).
Proof.
  intros Hp Hw Hline Hsel c'.
  assert (Hnz : (selection =? 0) = false).
  { apply Z.eqb_neq. unfold len in Hsel. lia. }
  split; [split|split; [split|intros line' selection' e c2 Hline' Hnz' He; split]].
  - rewrite (Menu_loop_step _ _ _ _ _ p) by assumption. cbv zeta.
    rewrite Hline, Hnz.
    rewrite (Menu_body_out_of_range _ _ _ _ w) by assumption.
    now rewrite after_after.
  - now apply Menu_loop_prompts.
  - rewrite (OptionMenu_loop_step _ _ _ _ _ p) by assumption. cbv zeta.
    rewrite Hline, Hnz.
    rewrite OptionMenu_body_out_of_range by assumption.
    rewrite (BaseMenu_print_ok _ _ w) by assumption.
    now rewrite !after_after.
  - now apply OptionMenu_loop_prompts.
  - intros Htry.
    rewrite (Menu_loop_step _ _ _ _ _ p) by assumption. cbv zeta.
    rewrite Hline'. destruct (Z.eqb_spec selection' 0) as [?|_]; [contradiction|].
    unfold Menu_body, bind.
    now rewrite (try_except_IndexError_passes _ _ _ e c2).
  - intros Htry.
    rewrite (OptionMenu_loop_step _ _ _ _ _ p) by assumption. cbv zeta.
    rewrite Hline'. destruct (Z.eqb_spec selection' 0) as [?|_]; [contradiction|].
    unfold OptionMenu_body.
    now rewrite (try_except_IndexError_passes _ _ _ e c2).
Qed.

(** C9.  When the first line read by the value loop is the number of
    an item, [display] returns the value of that item: the menu has
    been printed once, the prompt written once, and no further line of
    input is read. *)
Theorem OptionMenu_display_returns_selected_value m line rest c p w i it v :
  print_width libm_log m = inr w ->
  selection_text m (len m) = inr p ->
  Py.int line = Some i ->
  1 <= i <= len m ->
  nth_error (menu_items m) (Z.to_nat (i - 1)) = Some it ->
  value_of it = inr v ->
  OptionMenu_display libm_log m (line :: rest) c
  = finish (inr v) rest
           (after c (map Out_line (menu_lines m w) ++ [Out_prompt p])).
Proof.
  intros Hw Hp Hline Hi Hnth Hv.
  rewrite (OptionMenu_display_ok _ _ _ w) by assumption.
  rewrite (OptionMenu_loop_valid _ _ _ _ p i it v) by assumption.
  now rewrite after_after.
Qed.

End Sessions.

(** ** Construction *)

Section Construction.

Context {W : Type}.
Variable libm_log : float -> float.

(** C3 (as amended).  A constructor call that leaves out [display]
    fails with the [TypeError] of the call itself; a call that passes
    a display, Python's [None] included, succeeds, and the new item
    holds that display and exactly one of callback and value. *)
Theorem item_construction (d : pyobj) (cb : callable W) (v : pyobj) :
  (exists it,
      MenuItem_init (Some d) (Some cb) = inr it
      /\ display_of it = d
      /\ callback_of it = inr cb
      /\ value_of it = inl AttributeError)
  /\ (exists it : item W,
         OptionMenuItem_init (Some d) (Some v) = inr it
         /\ display_of it = d
         /\ value_of it = inr v
         /\ callback_of it = inl AttributeError)
  /\ MenuItem_init None (Some cb) = inl TypeError
  /\ OptionMenuItem_init (W := W) None (Some v) = inl TypeError.
Proof.
  repeat split.
  - exists (MenuItem d cb). repeat split.
  - exists (OptionMenuItem d v). repeat split.
Qed.

(** C10.  [BasicMenu] and [BasicOptionMenu] called with [items] left
    at its default [None] fail with the [AttributeError] of
    [items.items()]: nothing has been printed and no input has been
    read by then. *)
Theorem builders_fail_without_items
        (name : pyobj) (stdin : list string) (c : console W) :
  BasicMenu_init libm_log name None stdin c
  = finish (inl AttributeError) stdin c
  /\ BasicOptionMenu_init libm_log name None stdin c
     = finish (inl AttributeError) stdin c.
Proof. split; reflexivity. Qed.

(** With a mapping, the builders get as far as [display]. *)
Lemma BasicMenu_init_display name kvs stdin (c : console W) :
  let self := add_items (Menu_init name)
                        (map (fun kv => MenuItem (fst kv) (snd kv)) kvs) in
  let o := Menu_display libm_log self stdin c in
  unread (BasicMenu_init libm_log name (Some kvs) stdin c) = unread o
  /\ final (BasicMenu_init libm_log name (Some kvs) stdin c) = final o.
Proof.
  cbv zeta. unfold BasicMenu_init. cbn [dict_items].
  destruct (result _); now split.
Qed.

End Construction.

(** ** The width of the index column *)

Section Width.

Context {W : Type}.
Variable libm_log : float -> float.

(** C7 (where the code departs from it).  With the C library's values
    of [log 1000.0] and [log 10.0], the quotient that [math.log]
    returns for 1000 items is 2.9999999999999996, so [print] uses the
    width 3 although the index 1000 has four digits. *)
Theorem print_width_of_1000_items (m : menu W) :
  libm_log 1000%float = 0x1.ba18a998fffa0p+2%float ->
  libm_log 10%float = 0x1.26bb1bbb55516p+1%float ->
  len m = 1000 ->
  print_width libm_log m = inr 3 /\ decimal_width (len m) = 4.
Proof.
  intros H1000 H10 Hlen. unfold print_width, Py.log. rewrite Hlen.
  change (Py.float_of_int 1000) with 1000%float.
  change (Py.float_of_int 10) with 10%float.
  cbn [Z.leb Z.compare]. rewrite H1000, H10.
  split; vm_compute; reflexivity.
Qed.

(** At the two sizes named by the specification the width is right. *)
Lemma print_width_of_9_and_10_items (m9 m10 : menu W) :
  libm_log 9%float = 0x1.193ea7aad030bp+1%float ->
  libm_log 10%float = 0x1.26bb1bbb55516p+1%float ->
  len m9 = 9 -> len m10 = 10 ->
  print_width libm_log m9 = inr 1 /\ print_width libm_log m10 = inr 2.
Proof.
  intros H9 H10 L9 L10. unfold print_width, Py.log. rewrite L9, L10.
  change (Py.float_of_int 9) with 9%float.
  change (Py.float_of_int 10) with 10%float.
  cbn [Z.leb Z.compare]. rewrite H9, H10.
  split; vm_compute; reflexivity.
Qed.

(** A menu of two items is printed with the width 1. *)
Lemma print_width_of_2_items (m : menu W) :
  libm_log 2%float = 0x1.62e42fefa39efp-1%float ->
  libm_log 10%float = 0x1.26bb1bbb55516p+1%float ->
  len m = 2 ->
  print_width libm_log m = inr 1.
Proof.
  intros H2 H10 Hlen. unfold print_width, Py.log. rewrite Hlen.
  change (Py.float_of_int 2) with 2%float.
  change (Py.float_of_int 10) with 10%float.
  cbn [Z.leb Z.compare]. rewrite H2, H10.
  vm_compute; reflexivity.
Qed.

End Width.

(** ** Runs on the sample data *)

(** ** The lines that [int] accepts *)

Lemma lstrip_split (l : list ascii) :
  exists sp, l = sp ++ Py.lstrip l /\ forall a, In a sp -> Py.is_space a = true.
Proof.
  induction l as [|a l (sp & Hl & Hsp)]; cbn [Py.lstrip].
  - exists []. now split.
  - destruct (Py.is_space a) eqn:Ha.
    + exists (a :: sp). split; [cbn [app]; now f_equal|].
      intros b [<-|Hb]; [assumption|now apply Hsp].
    + exists []. now split.
Qed.

Lemma strip_split (l : list ascii) :
  exists s1 s2,
    l = s1 ++ Py.strip l ++ s2
    /\ forall a, In a (s1 ++ s2) -> Py.is_space a = true.
Proof.
  destruct (lstrip_split l) as (s1 & Hl & H1).
  destruct (lstrip_split (rev (Py.lstrip l))) as (s2 & Hr & H2).
  exists s1, (rev s2). split.
  - rewrite Hl at 1. f_equal. unfold Py.strip.
    rewrite <- rev_app_distr, <- Hr. now rewrite rev_involutive.
  - intros a Ha. apply in_app_or in Ha as [Ha|Ha]; [now apply H1|].
    apply H2. now apply in_rev.
Qed.

Lemma digits_chars (l : list ascii) :
  forall pending acc z,
    Py.digits pending acc l = Some z ->
    forall a, In a l -> Py.is_digit a = true \/ a = "_"%char.
Proof.
  induction l as [|b l IH]; intros pending acc z H a Ha; [destruct Ha|].
  cbn [Py.digits] in H. destruct Ha as [<-|Ha].
  - destruct (Py.is_digit b); [now left|].
    destruct (Ascii.eqb_spec b "_"); [now right|discriminate].
  - destruct (Py.is_digit b).
    + eapply IH; eassumption.
    + destruct (Ascii.eqb b "_"); [|discriminate].
      destruct pending; [discriminate|]. eapply IH; eassumption.
Qed.

Lemma unsigned_chars (l : list ascii) z :
  Py.unsigned l = Some z ->
  forall a, In a l -> Py.is_digit a = true \/ a = "_"%char.
Proof.
  unfold Py.unsigned. destruct (_ <=? _)%nat; [|discriminate].
  destruct l as [|b l]; [discriminate|].
  destruct (Py.is_digit b) eqn:Hb; [|discriminate].
  intros H a [<-|Ha]; [now left|].
  eapply digits_chars; eassumption.
Qed.

Lemma numeral_chars_are_ascii (a : ascii) :
  Py.is_space a = true \/ Py.is_digit a = true
  \/ a = "_"%char \/ a = "-"%char \/ a = "+"%char ->
  (nat_of_ascii a <? 128)%nat = true.
Proof.
  destruct a as [b0 b1 b2 b3 b4 b5 b6 []].
  - intros [H|[H|[H|[H|H]]]]; exfalso;
      destruct b0, b1, b2, b3, b4, b5, b6; discriminate H.
  - intros _. now destruct b0, b1, b2, b3, b4, b5, b6.
Qed.

(** A line that [int] takes to a number is a line of ASCII text: a few
    blanks, at most one sign, digits and underscores. *)
Lemma int_Some_is_ascii (s : string) (z : Z) :
  Py.int s = Some z -> Py.is_ascii s = true.
Proof.
  unfold Py.int, Py.is_ascii. intros H.
  apply forallb_forall. intros a Ha. apply numeral_chars_are_ascii.
  destruct (strip_split (list_ascii_of_string s)) as (s1 & s2 & Hs & Hsp).
  rewrite Hs in Ha.
  apply in_app_or in Ha as [Ha|Ha]; [left; apply Hsp; apply in_or_app; now left|].
  apply in_app_or in Ha as [Ha|Ha]; [|left; apply Hsp; apply in_or_app; now right].
  right. destruct (Py.strip (list_ascii_of_string s)) as [|b l]; [destruct Ha|].
  destruct (Ascii.eqb_spec b "-") as [->|Hm].
  - destruct (Py.unsigned l) as [u|] eqn:Hu; [|discriminate].
    destruct Ha as [<-|Ha]; [tauto|].
    destruct (unsigned_chars l u Hu a Ha); tauto.
  - destruct (Ascii.eqb_spec b "+") as [->|Hp].
    + destruct Ha as [<-|Ha]; [tauto|].
      destruct (unsigned_chars l z H a Ha); tauto.
    + destruct (unsigned_chars (b :: l) z H a Ha); tauto.
Qed.

(** [int] on sample lines: white space and the sign, underscores, the
    separator 28, which is not dropped, and the limit on the number of
    digits; a line that [int] refuses ends the session with
    [ValueError] even when it shows the number of an item. *)
Lemma int_on_sample_lines :
  map Py.int [" 12 "; "-0"; "+4"; "1_000"; "007"]
  = [Some 12; Some 0; Some 4; Some 1000; Some 7]
  /\ map Py.int [""; "1__0"; "_1"; "1_"; "- 1"; "0x1"; "1 2"]
     = [None; None; None; None; None; None; None]
  /\ Py.int (String (ascii_of_nat 28) "2") = None
  /\ Py.int (String (ascii_of_nat 11) "2") = Some 2
  /\ Py.int (string_of_list_ascii (repeat "1"%char 4300)) <> None
  /\ Py.int (string_of_list_ascii (repeat "1"%char 4301)) = None
  /\ Py.int (string_of_list_ascii (repeat "0"%char 4301)) = None
  /\ result (OptionMenu_display log_table red_blue_menu
                                [String (ascii_of_nat 28) "2"] (empty_console tt))
     = inl ValueError.
Proof.
  repeat split; try (vm_compute; reflexivity).
  vm_compute. discriminate.
Qed.

(** C1 (where the code departs from it).  On the menu of the two items
    Red and Blue, [get_selection 0] returns Blue and [get_selection (-1)]
    returns Red instead of raising [IndexError]; through the value loop,
    the input line [-1] makes [display] return the value of Red. *)
Theorem get_selection_below_one_returns_item :
  get_selection red_blue_menu 0
  = inr (OptionMenuItem (PyStr "Blue") (PyStr "B"))
  /\ get_selection red_blue_menu (-1)
     = inr (OptionMenuItem (PyStr "Red") (PyStr "R"))
  /\ result (OptionMenu_display log_table red_blue_menu ["-1"] (empty_console tt))
     = inr (PyStr "R").
Proof. repeat split. Qed.

(** C2, refuted as stated.  On a menu whose only item stores [None],
    the session ended by [0] and the session that selects the item have
    the same outcome, with the result [None] in both. *)
Lemma no_selection_equals_stored_None :
  value_of (OptionMenuItem (W := unit) (PyStr "Nothing") PyNone) = inr PyNone
  /\ result (OptionMenu_display log_table none_menu ["0"] (empty_console tt))
     = inr PyNone
  /\ OptionMenu_display log_table none_menu ["0"] (empty_console tt)
     = OptionMenu_display log_table none_menu ["1"] (empty_console tt).
Proof. repeat split. Qed.

Lemma OptionMenu_display_zero_returns_None_witness :
  let o := finish (inr PyNone) []
                  (after (empty_console tt)
                         [Out_line newline; Out_line "1: Nothing";
                          Out_prompt "Please select an option [0-1]: "]) in
  OptionMenu_display log_table none_menu ["0"] (empty_console tt) = o
  /\ forall line' i d,
      Py.int line' = Some i ->
      1 <= i <= len none_menu ->
      nth_error (menu_items none_menu) (Z.to_nat (i - 1))
      = Some (OptionMenuItem d PyNone) ->
      OptionMenu_display log_table none_menu [line'] (empty_console tt) = o.
Proof.
  apply (OptionMenu_display_zero_returns_None
           log_table none_menu "0" [] (empty_console tt)
           "Please select an option [0-1]: " 1); reflexivity.
Defined.

(** C3, refuted as stated.  Both constructors accept [None] as the
    display, and the failure of a call without display is a [TypeError],
    not an [InvalidArgument]. *)
Lemma display_None_is_accepted :
  MenuItem_init (Some PyNone) (Some incrementCounter)
  = inr (MenuItem PyNone incrementCounter)
  /\ OptionMenuItem_init (W := unit) (Some PyNone) (Some (PyStr "v"))
     = inr (OptionMenuItem PyNone (PyStr "v"))
  /\ MenuItem_init None (Some incrementCounter) <> inl InvalidArgument.
Proof. repeat split. discriminate. Qed.

(** C4, refuted as stated.  [print] on the empty menu does not end in an
    [EmptyMenu] failure: what it raises is the [ValueError] of
    [math.log]. *)
Lemma print_empty_menu_is_not_EmptyMenu :
  BaseMenu_print log_table (menu_of_size 0) (empty_console tt)
  = (inl ValueError, empty_console tt)
  /\ fst (BaseMenu_print log_table (menu_of_size 0) (empty_console tt))
     <> inl EmptyMenu.
Proof. split; [reflexivity|discriminate]. Qed.

Lemma print_empty_menu_raises_ValueError_witness :
  BaseMenu_print log_table (menu_of_size 0) (empty_console tt)
  = (inl ValueError, empty_console tt)
  /\ Py.log log_table (len (menu_of_size 0)) 10 = inl ValueError.
Proof.
  apply (print_empty_menu_raises_ValueError
           log_table (menu_of_size 0) (empty_console tt)).
  reflexivity.
Defined.


Lemma out_of_range_selection_reprompts_witness :
  let p := "Please select an option [0-2]: " in
  let c := empty_console 0%nat in
  let c' := after c (Out_prompt p
                       :: Out_line (invalid_option_text ab_menu)
                       :: map Out_line (menu_lines ab_menu 1)) in
  (Menu_loop log_table ab_menu ["5"; "0"] c = Menu_loop log_table ab_menu ["0"] c'
   /\ exists evs,
       stdout (final (Menu_loop log_table ab_menu ["0"] c'))
       = stdout c' ++ Out_prompt p :: evs)
  /\ (OptionMenu_loop log_table ab_menu ["5"; "0"] c
      = OptionMenu_loop log_table ab_menu ["0"] c'
      /\ exists evs,
          stdout (final (OptionMenu_loop log_table ab_menu ["0"] c'))
          = stdout c' ++ Out_prompt p :: evs)
  /\ forall line' selection' e c2,
      Py.int line' = Some selection' ->
      selection' <> 0 ->
      e <> SelectionOutOfRange ->
      (Menu_try ab_menu selection' (after c [Out_prompt p]) = (inl e, c2) ->
       Menu_loop log_table ab_menu [line'; "0"] c = finish (inl e) ["0"] c2)
      /\ (OptionMenu_try ab_menu selection' (after c [Out_prompt p]) = (inl e, c2) ->
          OptionMenu_loop log_table ab_menu [line'; "0"] c = finish (inl e) ["0"] c2).
Proof.
  apply (out_of_range_selection_reprompts
           log_table ab_menu "5" ["0"] (empty_console 0%nat)
           "Please select an option [0-2]: " 1 5);
    [reflexivity|reflexivity|reflexivity|vm_compute; reflexivity].
Defined.

Lemma print_width_of_1000_items_witness :
  print_width log_table (menu_of_size 1000) = inr 3
  /\ decimal_width (len (menu_of_size 1000)) = 4.
Proof.
  apply (print_width_of_1000_items log_table (menu_of_size 1000));
    vm_compute; reflexivity.
Defined.

(** At 9 and at 10 items the table gives the widths 1 and 2. *)
Lemma print_width_boundary :
  print_width log_table (menu_of_size 9) = inr 1
  /\ print_width log_table (menu_of_size 10) = inr 2.
Proof. split; vm_compute; reflexivity. Qed.

(** With the width 3 the index 1000 overflows its column. *)
Lemma index_column_of_1000_items :
  Py.format_int 1 3 = "  1" /\ Py.format_int 999 3 = "999"
  /\ Py.format_int 1000 3 = "1000".
Proof. repeat split. Qed.

(** C8.  On the items A and B, both bound to [incrementCounter], the
    input lines 1, 1, 0 make the action loop call the callback twice and
    end normally at the line 0 without reading further: [display]
    returns nothing, the counter has grown by two, and the menu has been
    printed and prompted for three times.  The same holds of the builder
    [BasicMenu] on the mapping of A and B. *)
Theorem action_loop_runs_callback_twice (n : nat) (rest : list string) :
  let lines := map Out_line (menu_lines ab_menu 1) in
  let prompt := [Out_prompt "Please select an option [0-2]: "] in
  let c := {| stdout := lines ++ prompt ++ lines ++ prompt ++ lines ++ prompt;
              world := S (S n) |} in
  Menu_display log_table ab_menu ("1" :: "1" :: "0" :: rest) (empty_console n)
  = finish (inr tt) rest c
  /\ BasicMenu_init log_table (PyStr "Counter") ab_items
                    ("1" :: "1" :: "0" :: rest) (empty_console n)
     = finish (inr ab_menu) rest c.
Proof. split; reflexivity. Qed.

(** The session of C9 on the items Red and Blue, and through the
    builder [BasicOptionMenu]. *)
Lemma OptionMenu_display_returns_selected_value_witness :
  OptionMenu_display log_table red_blue_menu ["2"; "1"] (empty_console tt)
  = finish (inr (PyStr "B")) ["1"]
           (after (empty_console tt)
                  (map Out_line (menu_lines red_blue_menu 1)
                       ++ [Out_prompt "Please select an option [0-2]: "])).
Proof.
  apply (OptionMenu_display_returns_selected_value
           log_table red_blue_menu "2" ["1"] (empty_console tt)
           "Please select an option [0-2]: " 1 2
           (OptionMenuItem (PyStr "Blue") (PyStr "B")) (PyStr "B"));
    try reflexivity.
  vm_compute. split; discriminate.
Defined.

Lemma BasicOptionMenu_red_blue (rest : list string) :
  BasicOptionMenu_init log_table PyNone red_blue_items ("2" :: rest)
                       (empty_console tt)
  = finish (inr (red_blue_menu, PyStr "B")) rest
           {| stdout := [Out_line newline; Out_line "1: Red"; Out_line "2: Blue";
                         Out_prompt "Please select an option [0-2]: "];
              world := tt |}.
Proof. reflexivity. Qed.

(** A callback that raises another exception than [IndexError] ends the
    action loop with that exception; one that raises [IndexError] is
    answered like a selection out of range. *)
Lemma callback_exceptions :
  let boom : callable nat := fun n => (inl (Exception_ "Boom"), n) in
  let oops : callable nat := fun n => (inl IndexError, n) in
  let m e := add_items (Menu_init PyNone) [MenuItem (PyStr "A") e] in
  result (Menu_display log_table (m boom) ["1"; "0"] (empty_console 0%nat))
  = inl (Exception_ "Boom")
  /\ Menu_display log_table (m oops) ["1"; "0"] (empty_console 0%nat)
     = Menu_display log_table (m oops) ["7"; "0"] (empty_console 0%nat).
Proof. split; reflexivity. Qed.

(** * Further properties of the module *)

(** ** Building a menu *)

Section Building.

Context {W : Type}.
Implicit Types (m : menu W) (it : item W) (its : list (item W)).

Lemma menu_items_add_items its :
  forall m, menu_items (add_items m its) = menu_items m ++ its.
Proof.
  induction its as [|it rest IH]; intros m; cbn [add_items fold_left].
  - now rewrite app_nil_r.
  - change (fold_left add_item rest (add_item m it))
      with (add_items (add_item m it) rest).
    rewrite IH. cbn [add_item menu_items]. now rewrite <- app_assoc.
Qed.

Lemma attributes_add_items its :
  forall m,
    name (add_items m its) = name m
    /\ display_exit (add_items m its) = display_exit m
    /\ exit_text (add_items m its) = exit_text m
    /\ invalid_option_text (add_items m its) = invalid_option_text m
    /\ selection_text (add_items m its) = selection_text m.
Proof.
  induction its as [|it rest IH]; intros m; cbn [add_items fold_left].
  - repeat split.
  - change (fold_left add_item rest (add_item m it))
      with (add_items (add_item m it) rest).
    destruct (IH (add_item m it)) as (H1 & H2 & H3 & H4 & H5).
    rewrite H1, H2, H3, H4, H5. repeat split.
Qed.

Lemma len_add_items m its :
  len (add_items m its) = len m + Z.of_nat (List.length its).
Proof.
  unfold len. rewrite menu_items_add_items, length_app. lia.
Qed.

(** X1.  [add_items] appends the given items in their order after the
    items the menu already has, so the length grows by their number,
    and it leaves the title, the exit flag and the three texts alone. *)
Theorem add_items_appends_in_order m its :
  menu_items (add_items m its) = menu_items m ++ its
  /\ len (add_items m its) = len m + Z.of_nat (List.length its)
  /\ name (add_items m its) = name m
  /\ display_exit (add_items m its) = display_exit m
  /\ exit_text (add_items m its) = exit_text m
  /\ invalid_option_text (add_items m its) = invalid_option_text m
  /\ selection_text (add_items m its) = selection_text m.
Proof.
  split; [apply menu_items_add_items|].
  split; [apply len_add_items|].
  apply attributes_add_items.
Qed.

(** X2.  The item at place [k] (from 0) of a list passed to [add_items]
    is afterwards selected by the number [len m + k + 1]. *)
Theorem get_selection_of_added_item m its k it :
  nth_error its k = Some it ->
  get_selection (add_items m its) (len m + Z.of_nat k + 1) = inr it.
Proof.
  intros Hk.
  assert (Hlt : (k < List.length its)%nat).
  { apply nth_error_Some. congruence. }
  destruct (get_selection_in_range (add_items m its) (len m + Z.of_nat k + 1))
    as (it' & Hnth & Hsel).
  { rewrite len_add_items. unfold len. lia. }
  rewrite Hsel. f_equal.
  rewrite menu_items_add_items in Hnth.
  replace (Z.to_nat (len m + Z.of_nat k + 1 - 1))
    with (List.length (menu_items m) + k)%nat in Hnth by (unfold len; lia).
  rewrite nth_error_app2 in Hnth by lia.
  replace (List.length (menu_items m) + k - List.length (menu_items m))%nat
    with k in Hnth by lia.
  congruence.
Qed.

(** X3.  Adding items does not renumber the items of the menu: every
    selection from 1 to the former length is answered as before. *)
Theorem get_selection_kept_by_add_items m its selection :
  1 <= selection <= len m ->
  get_selection (add_items m its) selection = get_selection m selection.
Proof.
  intros H.
  destruct (get_selection_in_range m selection H) as (it & Hnth & Hsel).
  destruct (get_selection_in_range (add_items m its) selection)
    as (it' & Hnth' & Hsel').
  { rewrite len_add_items. lia. }
  rewrite Hsel, Hsel'. f_equal.
  rewrite menu_items_add_items, nth_error_app1 in Hnth'
    by (unfold len in H; lia).
  congruence.
Qed.

(** X4.  [get_selection] raises exactly for the selections above the
    number of items and for those at or below its opposite, and what it
    raises is [IndexError]; every other selection, [0] and the negative
    ones included, is answered with an item. *)
Theorem get_selection_raises_iff m selection :
  (get_selection m selection = inl IndexError
   <-> len m < selection \/ selection <= - len m)
  /\ forall e, get_selection m selection = inl e -> e = IndexError.
Proof.
  split; [split|apply get_selection_raises_only_IndexError].
  - intros Hraise.
    destruct (Z_lt_le_dec (len m) selection) as [|Hle]; [now left|].
    destruct (Z_le_gt_dec selection (- len m)) as [|Hgt]; [now right|].
    exfalso.
    destruct (Z_le_gt_dec 1 selection) as [Hpos|Hneg].
    + destruct (get_selection_in_range m selection) as (it & _ & Hsel); [lia|].
      congruence.
    + rewrite get_selection_wraps in Hraise by lia.
      destruct (get_selection_in_range m (selection + len m))
        as (it & _ & Hsel); [lia|].
      congruence.
  - intros [H|H].
    + now apply get_selection_above.
    + now apply get_selection_below.
Qed.

End Building.

(** ** The lines of a printed menu *)

Section PrintedLines.

Context {W : Type}.
Variable libm_log : float -> float.
Implicit Types (m : menu W) (c : console W) (its : list (item W)).

Lemma length_item_lines w its : forall i, List.length (item_lines w i its) = List.length its.
Proof.
  induction its as [|it rest IH]; intros i; cbn [item_lines List.length].
  - reflexivity.
  - now rewrite IH.
Qed.

Lemma nth_error_item_lines w its :
  forall i k it,
    nth_error its k = Some it ->
    nth_error (item_lines w i its) k
    = Some (Py.format_int (i + Z.of_nat k) w ++ ": " ++ Py.str (display_of it))%string.
Proof.
  induction its as [|it0 rest IH]; intros i k it Hk.
  - destruct k; discriminate.
  - destruct k as [|k]; cbn [item_lines nth_error] in *.
    + injection Hk as ->. now rewrite Z.add_0_r.
    + rewrite (IH (i + 1) k it Hk). do 3 f_equal. lia.
Qed.

Lemma print_width_depends_on_len m m' :
  len m = len m' -> print_width libm_log m = print_width libm_log m'.
Proof. intros H. unfold print_width. now rewrite H. Qed.

(** X5.  When [print] succeeds it leaves the application state alone
    and writes one separating line, the title if there is one, one line
    per item and the exit line if the flag is set; the line of the item
    at place [k] (from 0) shows the number [k + 1], formatted to the
    width, before the label of that item. *)
Theorem print_numbers_items_from_one m c w k it :
  print_width libm_log m = inr w ->
  nth_error (menu_items m) k = Some it ->
  let c' := snd (BaseMenu_print libm_log m c) in
  let t := match name m with PyNone => 0%nat | _ => 1%nat end in
  world c' = world c
  /\ List.length (stdout c')
     = (List.length (stdout c) + 1 + t + List.length (menu_items m)
        + (if display_exit m then 1 else 0))%nat
  /\ nth_error (stdout c') (List.length (stdout c) + 1 + t + k)
     = Some (Out_line (Py.format_int (Z.of_nat k + 1) w ++ ": "
                         ++ Py.str (display_of it))%string).
Proof.
  intros Hw Hk c' t. subst c'.
  rewrite (BaseMenu_print_ok _ _ w) by assumption.
  cbn [snd after stdout world]. unfold menu_lines.
  set (title := match name m with PyNone => [] | x => [Py.str x] end).
  assert (Ht : List.length title = t).
  { unfold title, t. now destruct (name m). }
  split; [reflexivity|]. split.
  - rewrite length_app, length_map. cbn [List.length].
    rewrite !length_app, length_item_lines, Ht.
    destruct (display_exit m); cbn [List.length]; lia.
  - rewrite nth_error_app2 by lia.
    replace (List.length (stdout c) + 1 + t + k - List.length (stdout c))%nat
      with (S (t + k)) by lia.
    cbn [map nth_error]. rewrite nth_error_map, nth_error_app2 by lia.
    replace (t + k - List.length title)%nat with k by lia.
    rewrite nth_error_app1
      by (rewrite length_item_lines; apply nth_error_Some; congruence).
    rewrite (nth_error_item_lines w _ 1 k it Hk). cbn [option_map].
    do 4 f_equal. lia.
Qed.

(** X6.  A menu made by [Menu] ends its printed form with the exit line
    [0: Exit], the [0] formatted like the item numbers; a menu made by
    [OptionMenu] from the same items is printed without that line. *)
Theorem exit_line_of_Menu_and_OptionMenu (title : pyobj) its c w :
  print_width libm_log (add_items (Menu_init title) its) = inr w ->
  let head := Out_line newline
                :: map Out_line (match title with PyNone => [] | x => [Py.str x] end
                                   ++ item_lines w 1 its) in
  stdout (snd (BaseMenu_print libm_log (add_items (Menu_init title) its) c))
  = stdout c ++ head ++ [Out_line (Py.format_int 0 w ++ ": Exit")%string]
  /\ stdout (snd (BaseMenu_print libm_log (add_items (OptionMenu_init title) its) c))
     = stdout c ++ head.
Proof.
  intros Hw head.
  assert (Hw' : print_width libm_log (add_items (OptionMenu_init title) its) = inr w).
  { rewrite <- Hw. apply print_width_depends_on_len.
    now rewrite !len_add_items. }
  rewrite (BaseMenu_print_ok _ _ w), (BaseMenu_print_ok _ _ w) by assumption.
  cbn [snd after stdout]. unfold menu_lines, head.
  destruct (attributes_add_items its (Menu_init title)) as (N1 & E1 & T1 & _).
  destruct (attributes_add_items its (OptionMenu_init title)) as (N2 & E2 & _).
  rewrite !menu_items_add_items, N1, E1, T1, N2, E2.
  cbn [Menu_init OptionMenu_init BaseMenu_init name display_exit exit_text
       menu_items app].
  split.
  - cbn [map]. rewrite !map_app. cbn [map]. do 2 f_equal.
    rewrite <- app_assoc. now destruct title.
  - rewrite app_nil_r. now destruct title.
Qed.

End PrintedLines.

(** ** One turn of the action loop *)

Section ActionTurn.

Context {W : Type}.
Variable libm_log : float -> float.
Implicit Types (m : menu W) (c : console W) (rest : list string).

Lemma get_selection_nth m i it :
  1 <= i <= len m ->
  nth_error (menu_items m) (Z.to_nat (i - 1)) = Some it ->
  get_selection m i = inr it.
Proof.
  intros Hi Hnth.
  destruct (get_selection_in_range m i Hi) as (it' & Hnth' & Hsel).
  congruence.
Qed.

Lemma Menu_try_callback m i d cb c :
  get_selection m i = inr (MenuItem d cb) ->
  Menu_try m i c
  = match cb (world c) with
    | (inr _, w') => (inr tt, {| stdout := stdout c; world := w' |})
    | (inl e, w') => (inl e, {| stdout := stdout c; world := w' |})
    end.
Proof.
  intros Hsel. unfold Menu_try, bind, lift, call, ret. rewrite Hsel.
  cbn [callback_of]. now destruct (cb (world c)) as [[e|r] w'].
Qed.

(** A turn of the action loop on a callback that returns. *)
Lemma Menu_loop_callback_turn m line rest c p w i d cb r w' :
  selection_text m (len m) = inr p ->
  print_width libm_log m = inr w ->
  Py.int line = Some i ->
  1 <= i <= len m ->
  nth_error (menu_items m) (Z.to_nat (i - 1)) = Some (MenuItem d cb) ->
  cb (world c) = (inr r, w') ->
  Menu_loop libm_log m (line :: rest) c
  = Menu_loop libm_log m rest
              {| stdout := stdout c ++ Out_prompt p :: map Out_line (menu_lines m w);
                 world := w' |}.
Proof.
  intros Hp Hw Hline Hi Hnth Hcb.
  rewrite (Menu_loop_step _ _ _ _ _ p) by assumption. cbv zeta.
  rewrite Hline. destruct (Z.eqb_spec i 0) as [->|_]; [lia|].
  unfold Menu_body, bind, try_except_IndexError.
  rewrite (Menu_try_callback m i d cb) by now apply get_selection_nth.
  cbn [after world stdout]. rewrite Hcb.
  rewrite (BaseMenu_print_ok _ _ w) by assumption.
  unfold after. cbn [stdout world]. now rewrite <- app_assoc.
Qed.

(** X7.  A line with the number of an item of class [MenuItem] makes
    the action loop call the callback of that item on the current
    application state; when the callback returns, its value is dropped,
    the menu is printed again and the loop goes on with the state that
    the callback left. *)
Theorem Menu_loop_runs_selected_callback m line rest c p w i d cb r w' :
  selection_text m (len m) = inr p ->
  print_width libm_log m = inr w ->
  Py.int line = Some i ->
  1 <= i <= len m ->
  nth_error (menu_items m) (Z.to_nat (i - 1)) = Some (MenuItem d cb) ->
  cb (world c) = (inr r, w') ->
  Menu_loop libm_log m (line :: rest) c
  = Menu_loop libm_log m rest
              {| stdout := stdout c ++ Out_prompt p :: map Out_line (menu_lines m w);
                 world := w' |}.
Proof. apply Menu_loop_callback_turn. Qed.

(** X8.  An [IndexError] raised by the selected callback is caught by
    the handler meant for selections out of range: the invalid-option
    line is written, the menu is printed again and the loop goes on,
    with the state as the callback left it. *)
Theorem Menu_loop_catches_IndexError_of_callback m line rest c p w i d cb w' :
  selection_text m (len m) = inr p ->
  print_width libm_log m = inr w ->
  Py.int line = Some i ->
  1 <= i <= len m ->
  nth_error (menu_items m) (Z.to_nat (i - 1)) = Some (MenuItem d cb) ->
  cb (world c) = (inl IndexError, w') ->
  Menu_loop libm_log m (line :: rest) c
  = Menu_loop libm_log m rest
              {| stdout := stdout c ++ Out_prompt p
                             :: Out_line (invalid_option_text m)
                             :: map Out_line (menu_lines m w);
                 world := w' |}.
Proof.
  intros Hp Hw Hline Hi Hnth Hcb.
  rewrite (Menu_loop_step _ _ _ _ _ p) by assumption. cbv zeta.
  rewrite Hline. destruct (Z.eqb_spec i 0) as [->|_]; [lia|].
  unfold Menu_body, bind, try_except_IndexError.
  rewrite (Menu_try_callback m i d cb) by now apply get_selection_nth.
  cbn [after world stdout]. rewrite Hcb.
  rewrite print_after, (BaseMenu_print_ok _ _ w) by assumption.
  unfold after. cbn [stdout world]. now rewrite <- !app_assoc.
Qed.

(** X9.  An exception of another class raised by the selected callback
    ends the action loop: it is the result of the loop, nothing is
    written after the prompt of that turn, and the later lines stay
    unread. *)
Theorem Menu_loop_propagates_exception_of_callback m line rest c p i d cb e w' :
  selection_text m (len m) = inr p ->
  Py.int line = Some i ->
  1 <= i <= len m ->
  nth_error (menu_items m) (Z.to_nat (i - 1)) = Some (MenuItem d cb) ->
  cb (world c) = (inl e, w') ->
  e <> IndexError ->
  Menu_loop libm_log m (line :: rest) c
  = finish (inl e) rest
           {| stdout := stdout c ++ [Out_prompt p]; world := w' |}.
Proof.
  intros Hp Hline Hi Hnth Hcb He.
  rewrite (Menu_loop_step _ _ _ _ _ p) by assumption. cbv zeta.
  rewrite Hline. destruct (Z.eqb_spec i 0) as [->|_]; [lia|].
  unfold Menu_body, bind.
  rewrite (try_except_IndexError_passes _ _ _ e
             {| stdout := stdout c ++ [Out_prompt p]; world := w' |});
    [reflexivity| |assumption].
  rewrite (Menu_try_callback m i d cb) by now apply get_selection_nth.
  cbn [after world stdout]. now rewrite Hcb.
Qed.

(** X10.  Selecting, in the action loop, an item that has no callback
    (an [OptionMenuItem] or a [BaseMenuItem]) ends the loop with
    [AttributeError]; so does selecting, in the value loop, an item
    that has no value. *)
Theorem loops_raise_AttributeError_on_foreign_item m line rest c p i it :
  selection_text m (len m) = inr p ->
  Py.int line = Some i ->
  1 <= i <= len m ->
  nth_error (menu_items m) (Z.to_nat (i - 1)) = Some it ->
  (callback_of it = inl AttributeError ->
   Menu_loop libm_log m (line :: rest) c
   = finish (inl AttributeError) rest (after c [Out_prompt p]))
  /\ (value_of it = inl AttributeError ->
      OptionMenu_loop libm_log m (line :: rest) c
      = finish (inl AttributeError) rest (after c [Out_prompt p])).
Proof.
  intros Hp Hline Hi Hnth.
  pose proof (get_selection_nth m i it Hi Hnth) as Hsel.
  destruct (Z.eqb_spec i 0) as [->|Hnz]; [lia|].
  apply Z.eqb_neq in Hnz.
  split; intros Hattr.
  - rewrite (Menu_loop_step _ _ _ _ _ p) by assumption. cbv zeta.
    rewrite Hline, Hnz.
    unfold Menu_body, bind.
    rewrite (try_except_IndexError_passes _ _ _ AttributeError
               (after c [Out_prompt p])); [reflexivity| |discriminate].
    unfold Menu_try, bind, lift. now rewrite Hsel, Hattr.
  - rewrite (OptionMenu_loop_step _ _ _ _ _ p) by assumption. cbv zeta.
    rewrite Hline, Hnz.
    unfold OptionMenu_body.
    rewrite (try_except_IndexError_passes _ _ _ AttributeError
               (after c [Out_prompt p])); [reflexivity| |discriminate].
    unfold OptionMenu_try, bind, lift. now rewrite Hsel, Hattr.
Qed.

End ActionTurn.

(** ** Whole sessions *)

Section WholeSessions.

Context {W : Type}.
Variable libm_log : float -> float.
Implicit Types (m : menu W) (c : console W) (stdin rest : list string).

Lemma world_BaseMenu_print m c :
  world (snd (BaseMenu_print libm_log m c)) = world c.
Proof.
  destruct (print_width libm_log m) as [e|w] eqn:E.
  - now rewrite (BaseMenu_print_raises _ _ e).
  - now rewrite (BaseMenu_print_ok _ _ w).
Qed.

Lemma world_OptionMenu_body m selection c :
  world (snd (OptionMenu_body m selection c)) = world c.
Proof.
  unfold OptionMenu_body, try_except_IndexError, OptionMenu_try, bind, lift, ret.
  destruct (get_selection m selection) as [e|it] eqn:E.
  - apply get_selection_raises_only_IndexError in E. now subst e.
  - destruct it; reflexivity.
Qed.

Lemma world_OptionMenu_loop m stdin :
  forall c, world (final (OptionMenu_loop libm_log m stdin c)) = world c.
Proof.
  induction stdin as [|line rest IH]; intros c.
  - cbn [OptionMenu_loop]. now destruct (selection_text m (len m)).
  - destruct (selection_text m (len m)) as [e|p] eqn:E.
    + cbn [OptionMenu_loop]. now rewrite E.
    + rewrite (OptionMenu_loop_step _ _ _ _ _ p) by assumption. cbv zeta.
      destruct (Py.int line) as [selection|]; [|reflexivity].
      destruct (selection =? 0); [reflexivity|].
      pose proof (world_OptionMenu_body m selection (after c [Out_prompt p])) as Hb.
      change (world (after c [Out_prompt p])) with (world c) in Hb.
      destruct (OptionMenu_body _ _ _) as [[e|[v|]] c2];
        cbn [snd final finish] in *; try exact Hb.
      pose proof (world_BaseMenu_print m c2) as Hp.
      destruct (BaseMenu_print _ _ _) as [[e|u] c3]; cbn [snd final finish] in *.
      * congruence.
      * rewrite IH. congruence.
Qed.

(** X11.  The value loop never calls a callback: whatever the menu
    holds and whatever is typed, [OptionMenu.display] ends with the
    application state it started with. *)
Theorem OptionMenu_display_keeps_world m stdin c :
  world (final (OptionMenu_display libm_log m stdin c)) = world c.
Proof.
  unfold OptionMenu_display.
  pose proof (world_BaseMenu_print m c) as Hp.
  destruct (BaseMenu_print _ _ _) as [[e|u] c1]; cbn [snd final finish] in *.
  - exact Hp.
  - now rewrite world_OptionMenu_loop.
Qed.

Lemma Menu_loop_unread m stdin :
  forall c, exists read, stdin = read ++ unread (Menu_loop libm_log m stdin c).
Proof.
  induction stdin as [|line rest IH]; intros c.
  - exists []. cbn [Menu_loop]. now destruct (selection_text m (len m)).
  - destruct (selection_text m (len m)) as [e|p] eqn:E.
    + exists []. cbn [Menu_loop]. now rewrite E.
    + rewrite (Menu_loop_step _ _ _ _ _ p) by assumption. cbv zeta.
      destruct (Py.int line) as [selection|]; [|now exists [line]].
      destruct (selection =? 0); [now exists [line]|].
      destruct (Menu_body _ _ _ _) as [[e|u] c2]; [now exists [line]|].
      destruct (IH c2) as [read Hr]. exists (line :: read).
      cbn [app]. now rewrite <- Hr.
Qed.

Lemma OptionMenu_loop_unread m stdin :
  forall c, exists read, stdin = read ++ unread (OptionMenu_loop libm_log m stdin c).
Proof.
  induction stdin as [|line rest IH]; intros c.
  - exists []. cbn [OptionMenu_loop]. now destruct (selection_text m (len m)).
  - destruct (selection_text m (len m)) as [e|p] eqn:E.
    + exists []. cbn [OptionMenu_loop]. now rewrite E.
    + rewrite (OptionMenu_loop_step _ _ _ _ _ p) by assumption. cbv zeta.
      destruct (Py.int line) as [selection|]; [|now exists [line]].
      destruct (selection =? 0); [now exists [line]|].
      destruct (OptionMenu_body _ _ _) as [[e|[v|]] c2];
        try (now exists [line]).
      destruct (BaseMenu_print _ _ _) as [[e|u] c3]; [now exists [line]|].
      destruct (IH c3) as [read Hr]. exists (line :: read).
      cbn [app]. now rewrite <- Hr.
Qed.

(** X12.  Input is read from the front and in order: in both variants
    the lines that [display] leaves unread are a suffix of its standard
    input. *)
Theorem display_reads_a_prefix m stdin c :
  (exists read, stdin = read ++ unread (Menu_display libm_log m stdin c))
  /\ (exists read, stdin = read ++ unread (OptionMenu_display libm_log m stdin c)).
Proof.
  unfold Menu_display, OptionMenu_display.
  destruct (BaseMenu_print _ _ _) as [[e|u] c1].
  - split; now exists [].
  - split; [apply Menu_loop_unread|apply OptionMenu_loop_unread].
Qed.

Lemma Menu_loop_normal_end m stdin :
  forall c,
    result (Menu_loop libm_log m stdin c) = inr tt ->
    exists read line,
      stdin = read ++ line :: unread (Menu_loop libm_log m stdin c)
      /\ Py.int line = Some 0.
Proof.
  induction stdin as [|line rest IH]; intros c.
  - cbn [Menu_loop]. destruct (selection_text m (len m)); discriminate.
  - destruct (selection_text m (len m)) as [e|p] eqn:E.
    + cbn [Menu_loop]. rewrite E. discriminate.
    + rewrite (Menu_loop_step _ _ _ _ _ p) by assumption. cbv zeta.
      destruct (Py.int line) as [selection|] eqn:Hline; [|discriminate].
      destruct (Z.eqb_spec selection 0) as [->|_].
      * intros _. now exists [], line.
      * destruct (Menu_body _ _ _ _) as [[e|u] c2]; [discriminate|].
        intros Hres. destruct (IH c2 Hres) as (read & l0 & Hr & H0).
        exists (line :: read), l0. cbn [app]. now rewrite <- Hr.
Qed.

(** X13.  The exit sentinel is the only normal way out of the action
    loop: when [Menu.display] returns, the last line it read is one
    that [int] takes to [0]. *)
Theorem Menu_display_returns_only_on_zero m stdin c :
  result (Menu_display libm_log m stdin c) = inr tt ->
  exists read line,
    stdin = read ++ line :: unread (Menu_display libm_log m stdin c)
    /\ Py.int line = Some 0.
Proof.
  unfold Menu_display.
  destruct (BaseMenu_print _ _ _) as [[e|u] c1]; [discriminate|].
  apply Menu_loop_normal_end.
Qed.

Lemma OptionMenu_body_value m selection c v c' :
  OptionMenu_body m selection c = (inr (Some v), c') ->
  exists d, In (OptionMenuItem d v) (menu_items m).
Proof.
  unfold OptionMenu_body, try_except_IndexError, OptionMenu_try, bind, lift, ret.
  destruct (get_selection m selection) as [e|it] eqn:E.
  - apply get_selection_raises_only_IndexError in E. subst e.
    cbn. discriminate.
  - rewrite get_selection_getitem in E. unfold Py.getitem in E.
    destruct (_ || _); [discriminate|].
    destruct (nth_error _ _) as [it'|] eqn:Hnth; [|discriminate].
    injection E as ->. apply nth_error_In in Hnth.
    destruct it as [d|d cb|d v']; cbn [value_of]; try discriminate.
    intros H. injection H as -> _. now exists d.
Qed.

Lemma OptionMenu_loop_result m stdin :
  forall c v,
    result (OptionMenu_loop libm_log m stdin c) = inr v ->
    v = PyNone \/ exists d, In (OptionMenuItem d v) (menu_items m).
Proof.
  induction stdin as [|line rest IH]; intros c v.
  - cbn [OptionMenu_loop]. destruct (selection_text m (len m)); discriminate.
  - destruct (selection_text m (len m)) as [e|p] eqn:E.
    + cbn [OptionMenu_loop]. rewrite E. discriminate.
    + rewrite (OptionMenu_loop_step _ _ _ _ _ p) by assumption. cbv zeta.
      destruct (Py.int line) as [selection|]; [|discriminate].
      destruct (selection =? 0).
      * cbn. intros H. left. congruence.
      * destruct (OptionMenu_body _ _ _) as [[e|[v'|]] c2] eqn:Hb;
          [discriminate| |].
        -- cbn. intros H. injection H as ->. right.
           eapply OptionMenu_body_value; exact Hb.
        -- destruct (BaseMenu_print _ _ _) as [[e|u] c3]; [discriminate|].
           apply IH.
Qed.

(** X14.  What [OptionMenu.display] returns is either [None] or the
    value stored in one of the items of the menu. *)
Theorem OptionMenu_display_returns_stored_value_or_None m stdin c v :
  result (OptionMenu_display libm_log m stdin c) = inr v ->
  v = PyNone \/ exists d, In (OptionMenuItem d v) (menu_items m).
Proof.
  unfold OptionMenu_display.
  destruct (BaseMenu_print _ _ _) as [[e|u] c1]; [discriminate|].
  apply OptionMenu_loop_result.
Qed.

End WholeSessions.

(** ** Selections below one, and refused selections *)

Section RefusedSelections.

Context {W : Type}.
Variable libm_log : float -> float.
Implicit Types (m : menu W) (c : console W) (stdin rest : list string).

Lemma Menu_body_same_item m selection selection' c :
  get_selection m selection = get_selection m selection' ->
  Menu_body libm_log m selection c = Menu_body libm_log m selection' c.
Proof.
  intros H. unfold Menu_body, bind, try_except_IndexError, Menu_try, bind, lift.
  now rewrite H.
Qed.

Lemma OptionMenu_body_same_item m selection selection' c :
  get_selection m selection = get_selection m selection' ->
  OptionMenu_body m selection c = OptionMenu_body m selection' c.
Proof.
  intros H. unfold OptionMenu_body, try_except_IndexError, OptionMenu_try, bind, lift.
  now rewrite H.
Qed.

(** X15.  Both loops take a negative selection above [- len m] for the
    selection [len m] places higher: the line [-1] acts as the number
    of the item before the last one, and so on up to the first item. *)
Theorem loops_wrap_negative_selection m line line' rest c p selection :
  selection_text m (len m) = inr p ->
  Py.int line = Some selection ->
  Py.int line' = Some (selection + len m) ->
  - len m < selection < 0 ->
  Menu_loop libm_log m (line :: rest) c = Menu_loop libm_log m (line' :: rest) c
  /\ OptionMenu_loop libm_log m (line :: rest) c
     = OptionMenu_loop libm_log m (line' :: rest) c.
Proof.
  intros Hp Hline Hline' Hsel.
  assert (Hget : get_selection m selection = get_selection m (selection + len m))
    by (apply get_selection_wraps; lia).
  assert (H1 : (selection =? 0) = false) by (apply Z.eqb_neq; lia).
  assert (H2 : (selection + len m =? 0) = false) by (apply Z.eqb_neq; lia).
  split.
  - rewrite !(Menu_loop_step _ _ _ _ _ p) by assumption. cbv zeta.
    rewrite Hline, Hline', H1, H2.
    now rewrite (Menu_body_same_item m _ _ _ Hget).
  - rewrite !(OptionMenu_loop_step _ _ _ _ _ p) by assumption. cbv zeta.
    rewrite Hline, Hline', H1, H2.
    now rewrite (OptionMenu_body_same_item m _ _ _ Hget).
Qed.

Lemma Menu_body_refused m selection c w :
  get_selection m selection = inl IndexError ->
  print_width libm_log m = inr w ->
  Menu_body libm_log m selection c
  = (inr tt, after c (Out_line (invalid_option_text m)
                        :: map Out_line (menu_lines m w))).
Proof.
  intros Hsel Hw. unfold Menu_body, bind, try_except_IndexError, Menu_try, bind, lift.
  rewrite Hsel, print_after, (BaseMenu_print_ok _ _ w) by assumption.
  now rewrite after_after.
Qed.

Lemma OptionMenu_body_refused m selection c :
  get_selection m selection = inl IndexError ->
  OptionMenu_body m selection c
  = (inr None, after c [Out_line (invalid_option_text m)]).
Proof.
  intros Hsel.
  unfold OptionMenu_body, try_except_IndexError, OptionMenu_try, bind, lift.
  now rewrite Hsel.
Qed.

(** One turn on a refused selection, in both loops. *)
Lemma loops_refuse m line rest c p w selection :
  selection_text m (len m) = inr p ->
  print_width libm_log m = inr w ->
  Py.int line = Some selection ->
  get_selection m selection = inl IndexError ->
  let c' := after c (Out_prompt p
                       :: Out_line (invalid_option_text m)
                       :: map Out_line (menu_lines m w)) in
  Menu_loop libm_log m (line :: rest) c = Menu_loop libm_log m rest c'
  /\ OptionMenu_loop libm_log m (line :: rest) c = OptionMenu_loop libm_log m rest c'.
Proof.
  intros Hp Hw Hline Hsel c'.
  assert (Hnz : (selection =? 0) = false).
  { apply Z.eqb_neq. intros ->.
    pose proof (print_width_nonempty _ _ _ Hw) as Hlen.
    rewrite get_selection_wraps in Hsel by lia.
    destruct (get_selection_in_range m (0 + len m)) as (it & _ & Hit); [lia|].
    congruence. }
  split.
  - rewrite (Menu_loop_step _ _ _ _ _ p) by assumption. cbv zeta.
    rewrite Hline, Hnz, (Menu_body_refused _ _ _ w) by assumption.
    now rewrite after_after.
  - rewrite (OptionMenu_loop_step _ _ _ _ _ p) by assumption. cbv zeta.
    rewrite Hline, Hnz, OptionMenu_body_refused by assumption.
    rewrite (BaseMenu_print_ok _ _ w) by assumption.
    now rewrite !after_after.
Qed.

End RefusedSelections.

Section RefusedSessions.

Context {W : Type}.
Variable libm_log : float -> float.
Implicit Types (m : menu W) (c : console W) (stdin rest : list string).

(** X16.  A selection at or below [- len m] is refused like one above
    [len m]: both loops write the invalid-option line, print the menu
    again and go on with the next line. *)
Theorem loops_refuse_far_negative_selection m line rest c p w selection :
  selection_text m (len m) = inr p ->
  print_width libm_log m = inr w ->
  Py.int line = Some selection ->
  selection <= - len m ->
  let c' := after c (Out_prompt p
                       :: Out_line (invalid_option_text m)
                       :: map Out_line (menu_lines m w)) in
  Menu_loop libm_log m (line :: rest) c = Menu_loop libm_log m rest c'
  /\ OptionMenu_loop libm_log m (line :: rest) c = OptionMenu_loop libm_log m rest c'.
Proof.
  intros Hp Hw Hline Hsel.
  exact (loops_refuse libm_log m line rest c p w selection Hp Hw Hline
                      (get_selection_below m selection Hsel)).
Qed.

(** The events of one refused turn. *)
Lemma refused_session m p w stdin :
  selection_text m (len m) = inr p ->
  print_width libm_log m = inr w ->
  Forall (fun line => exists selection,
              Py.int line = Some selection
              /\ get_selection m selection = inl IndexError) stdin ->
  forall c,
    let turn := Out_prompt p
                  :: Out_line (invalid_option_text m)
                  :: map Out_line (menu_lines m w) in
    let c' := after c (flat_map (fun _ => turn) stdin ++ [Out_prompt p]) in
    Menu_loop libm_log m stdin c = finish (inl EOFError) [] c'
    /\ OptionMenu_loop libm_log m stdin c = finish (inl EOFError) [] c'.
Proof.
  intros Hp Hw Hall. induction Hall as [|line rest (selection & Hline & Hsel) _ IH];
    intros c turn c'.
  - subst c'. cbn [flat_map app].
    split; [now apply Menu_loop_eof|now apply OptionMenu_loop_eof].
  - destruct (loops_refuse libm_log m line rest c p w selection Hp Hw Hline Hsel)
      as [HM HO].
    rewrite HM, HO. fold turn.
    destruct (IH (after c turn)) as [IHM IHO].
    rewrite IHM, IHO. subst c'. cbn [flat_map].
    rewrite after_after, <- app_assoc. now split.
Qed.

(** X17.  A session in which every line is a selection above the number
    of items ends, in both variants, with [EOFError] once the input is
    used up: each line has been answered by the invalid-option line and
    a fresh print of the menu, and one last prompt has been written. *)
Theorem out_of_range_session_ends_in_EOFError m p w stdin c :
  selection_text m (len m) = inr p ->
  print_width libm_log m = inr w ->
  Forall (fun line => exists selection,
              Py.int line = Some selection /\ len m < selection) stdin ->
  let turn := Out_prompt p
                :: Out_line (invalid_option_text m)
                :: map Out_line (menu_lines m w) in
  let c' := after c (flat_map (fun _ => turn) stdin ++ [Out_prompt p]) in
  Menu_loop libm_log m stdin c = finish (inl EOFError) [] c'
  /\ OptionMenu_loop libm_log m stdin c = finish (inl EOFError) [] c'.
Proof.
  intros Hp Hw Hall. apply refused_session; try assumption.
  eapply Forall_impl; [|exact Hall].
  intros line (selection & Hline & Hsel). exists selection.
  split; [assumption|now apply get_selection_above].
Qed.

(** X18.  A line that [int] takes to [0] ends [Menu.display] at once:
    the menu has been printed once and the prompt written once, no
    callback has run, and the method returns nothing, although
    [get_selection 0] would have answered with the last item. *)
Theorem Menu_display_exits_on_zero m line rest c p w :
  print_width libm_log m = inr w ->
  selection_text m (len m) = inr p ->
  Py.int line = Some 0 ->
  Menu_display libm_log m (line :: rest) c
  = finish (inr tt) rest
           (after c (map Out_line (menu_lines m w) ++ [Out_prompt p]))
  /\ exists it, get_selection m 0 = inr it
                /\ nth_error (menu_items m) (Z.to_nat (len m - 1)) = Some it.
Proof.
  intros Hw Hp Hline. split.
  - rewrite (Menu_display_ok _ _ _ _ w) by assumption.
    rewrite (Menu_loop_step _ _ _ _ _ p) by assumption. cbv zeta.
    rewrite Hline. cbn [Z.eqb]. now rewrite after_after.
  - pose proof (print_width_nonempty _ _ _ Hw) as Hlen.
    rewrite get_selection_wraps by lia.
    destruct (get_selection_in_range m (0 + len m)) as (it & Hnth & Hit); [lia|].
    exists it. split; [assumption|].
    now replace (len m - 1) with (0 + len m - 1) by lia.
Qed.

End RefusedSessions.

(** ** The builders *)

Section Builders.

Context {W : Type}.
Variable libm_log : float -> float.
Implicit Types (c : console W) (rest : list string).

(** X19.  [BasicOptionMenu] on a mapping: when the first line is the
    number [k + 1] of the pair at place [k] of the mapping, the
    constructor ends normally with [selection] set to the value of that
    pair; the menu holds one option item per pair, in the order of the
    mapping, and the prompt names their number. *)
Theorem BasicOptionMenu_selects_value_of_pair
        (title : pyobj) (kvs : list (pyobj * pyobj)) line rest c w k key v :
  let self := add_items (OptionMenu_init title)
                        (map (fun kv => OptionMenuItem (fst kv) (snd kv)) kvs) in
  print_width libm_log self = inr w ->
  nth_error kvs k = Some (key, v) ->
  Py.int line = Some (Z.of_nat k + 1) ->
  BasicOptionMenu_init libm_log title (Some kvs) (line :: rest) c
  = finish (inr (self, v)) rest
           (after c (map Out_line (menu_lines self w)
                       ++ [Out_prompt ("Please select an option [0-"
                                         ++ Py.str_of_int (Z.of_nat (List.length kvs))
                                         ++ "]: ")%string]))
  /\ menu_items self = map (fun kv => OptionMenuItem (fst kv) (snd kv)) kvs.
Proof.
  intros self Hw Hk Hline.
  assert (Hitems : menu_items self
                   = map (fun kv => OptionMenuItem (fst kv) (snd kv)) kvs).
  { unfold self. now rewrite menu_items_add_items. }
  assert (Hlen : len self = Z.of_nat (List.length kvs)).
  { unfold len. now rewrite Hitems, length_map. }
  assert (Hp : selection_text self (len self)
               = inr ("Please select an option [0-"
                        ++ Py.str_of_int (Z.of_nat (List.length kvs)) ++ "]: ")%string).
  { destruct (attributes_add_items
                (map (fun kv => OptionMenuItem (fst kv) (snd kv)) kvs)
                (OptionMenu_init (W := W) title)) as (_ & _ & _ & _ & Hs).
    change (selection_text self = selection_text (OptionMenu_init (W := W) title))
      in Hs.
    rewrite Hs, Hlen. reflexivity. }
  split; [|exact Hitems].
  unfold BasicOptionMenu_init. cbn [dict_items]. fold self.
  rewrite (OptionMenu_display_ok _ _ _ _ w) by assumption.
  rewrite (OptionMenu_loop_valid _ _ _ _ _ _ (Z.of_nat k + 1)
             (OptionMenuItem key v) v Hp Hline).
  - cbn [result unread final finish]. now rewrite after_after.
  - assert (k < List.length kvs)%nat by (apply nth_error_Some; congruence). lia.
  - rewrite Hitems.
    replace (Z.to_nat (Z.of_nat k + 1 - 1)) with k by lia.
    now rewrite nth_error_map, Hk.
  - reflexivity.
Qed.

(** X20.  Both builders fail on an empty mapping: the menu they print
    first has no item, so the [ValueError] of [math.log] leaves the
    constructor before anything is written or read. *)
Theorem builders_fail_on_empty_mapping (title : pyobj) (stdin : list string) c :
  BasicMenu_init libm_log title (Some []) stdin c
  = finish (inl ValueError) stdin c
  /\ BasicOptionMenu_init libm_log title (Some []) stdin c
     = finish (inl ValueError) stdin c.
Proof. split; reflexivity. Qed.

(** X21.  [BasicMenu] on a mapping: the line with the number [k + 1]
    runs the callback of the pair at place [k] of the mapping, once,
    and a following [0] ends the constructor normally; the new menu
    holds one action item per pair, in the order of the mapping, and it
    has been printed twice. *)
Theorem BasicMenu_runs_callback_of_pair
        (title : pyobj) (kvs : list (pyobj * callable W))
        line line0 rest c w k key cb r w' :
  let self := add_items (Menu_init title)
                        (map (fun kv => MenuItem (fst kv) (snd kv)) kvs) in
  let prompt := Out_prompt ("Please select an option [0-"
                              ++ Py.str_of_int (Z.of_nat (List.length kvs))
                              ++ "]: ")%string in
  print_width libm_log self = inr w ->
  nth_error kvs k = Some (key, cb) ->
  Py.int line = Some (Z.of_nat k + 1) ->
  Py.int line0 = Some 0 ->
  cb (world c) = (inr r, w') ->
  BasicMenu_init libm_log title (Some kvs) (line :: line0 :: rest) c
  = finish (inr self) rest
           {| stdout := stdout c
                          ++ map Out_line (menu_lines self w) ++ [prompt]
                          ++ map Out_line (menu_lines self w) ++ [prompt];
              world := w' |}
  /\ menu_items self = map (fun kv => MenuItem (fst kv) (snd kv)) kvs.
Proof.
  intros self prompt Hw Hk Hline Hline0 Hcb.
  assert (Hitems : menu_items self
                   = map (fun kv => MenuItem (fst kv) (snd kv)) kvs).
  { unfold self. now rewrite menu_items_add_items. }
  assert (Hlen : len self = Z.of_nat (List.length kvs)).
  { unfold len. now rewrite Hitems, length_map. }
  assert (Hp : selection_text self (len self)
               = inr ("Please select an option [0-"
                        ++ Py.str_of_int (Z.of_nat (List.length kvs)) ++ "]: ")%string).
  { destruct (attributes_add_items
                (map (fun kv => MenuItem (fst kv) (snd kv)) kvs)
                (Menu_init (W := W) title)) as (_ & _ & _ & _ & Hs).
    change (selection_text self = selection_text (Menu_init (W := W) title))
      in Hs.
    rewrite Hs, Hlen. reflexivity. }
  split; [|exact Hitems].
  unfold BasicMenu_init. cbn [dict_items]. fold self.
  rewrite (Menu_display_ok _ _ _ _ w) by assumption.
  rewrite (Menu_loop_callback_turn _ _ _ _ _ _ w (Z.of_nat k + 1) key cb r w' Hp Hw Hline).
  - rewrite (Menu_loop_step _ _ _ _ _ _ Hp). cbv zeta.
    rewrite Hline0. cbn [Z.eqb result unread final finish].
    unfold after, finish, prompt. cbn [stdout world].
    do 2 f_equal. rewrite <- !app_assoc. cbn [app]. reflexivity.
  - assert (k < List.length kvs)%nat by (apply nth_error_Some; congruence). lia.
  - rewrite Hitems.
    replace (Z.to_nat (Z.of_nat k + 1 - 1)) with k by lia.
    now rewrite nth_error_map, Hk.
  - exact Hcb.
Qed.

End Builders.

(** ** Runs of the further properties on the sample data *)

Lemma get_selection_of_added_item_witness :
  get_selection (add_items (OptionMenu_init (W := unit) PyNone)
                           [OptionMenuItem (PyStr "Red") (PyStr "R");
                            OptionMenuItem (PyStr "Blue") (PyStr "B")])
                (len (OptionMenu_init (W := unit) PyNone) + Z.of_nat 1 + 1)
  = inr (OptionMenuItem (PyStr "Blue") (PyStr "B")).
Proof.
  apply (get_selection_of_added_item
           (OptionMenu_init PyNone)
           [OptionMenuItem (PyStr "Red") (PyStr "R");
            OptionMenuItem (PyStr "Blue") (PyStr "B")] 1).
  reflexivity.
Defined.

Lemma get_selection_kept_by_add_items_witness :
  get_selection (add_items red_blue_menu [OptionMenuItem (PyStr "Green") (PyStr "G")]) 2
  = get_selection red_blue_menu 2.
Proof.
  apply (get_selection_kept_by_add_items red_blue_menu).
  vm_compute. split; discriminate.
Defined.

Lemma print_numbers_items_from_one_witness :
  let c' := snd (BaseMenu_print log_table ab_menu (empty_console 0%nat)) in
  world c' = 0%nat
  /\ List.length (stdout c') = 5%nat
  /\ nth_error (stdout c') 3 = Some (Out_line "2: B").
Proof.
  apply (print_numbers_items_from_one
           log_table ab_menu (empty_console 0%nat) 1 1
           (MenuItem (PyStr "B") incrementCounter)); reflexivity.
Defined.

Lemma exit_line_of_Menu_and_OptionMenu_witness :
  let its := [OptionMenuItem (W := unit) (PyStr "Red") (PyStr "R");
              OptionMenuItem (PyStr "Blue") (PyStr "B")] in
  let head := [Out_line newline; Out_line "Colours";
               Out_line "1: Red"; Out_line "2: Blue"] in
  stdout (snd (BaseMenu_print log_table (add_items (Menu_init (PyStr "Colours")) its)
                              (empty_console tt)))
  = [] ++ head ++ [Out_line "0: Exit"]
  /\ stdout (snd (BaseMenu_print log_table
                                 (add_items (OptionMenu_init (PyStr "Colours")) its)
                                 (empty_console tt)))
     = [] ++ head.
Proof.
  apply (exit_line_of_Menu_and_OptionMenu
           log_table (PyStr "Colours")
           [OptionMenuItem (PyStr "Red") (PyStr "R");
            OptionMenuItem (PyStr "Blue") (PyStr "B")]
           (empty_console tt) 1).
  reflexivity.
Defined.

Lemma Menu_loop_runs_selected_callback_witness :
  Menu_loop log_table ab_menu ["2"; "0"] (empty_console 7%nat)
  = Menu_loop log_table ab_menu ["0"]
              {| stdout := [] ++ Out_prompt "Please select an option [0-2]: "
                              :: map Out_line (menu_lines ab_menu 1);
                 world := 8%nat |}.
Proof.
  apply (Menu_loop_runs_selected_callback
           log_table ab_menu "2" ["0"] (empty_console 7%nat)
           "Please select an option [0-2]: " 1 2
           (PyStr "B") incrementCounter PyNone 8%nat); try reflexivity.
  vm_compute. split; discriminate.
Defined.

Lemma Menu_loop_catches_IndexError_of_callback_witness :
  Menu_loop log_table (raising_menu IndexError) ["1"; "0"] (empty_console 0%nat)
  = Menu_loop log_table (raising_menu IndexError) ["0"]
              {| stdout := [] ++ Out_prompt "Please select an option [0-1]: "
                              :: Out_line "Invalid option"
                              :: map Out_line (menu_lines (raising_menu IndexError) 1);
                 world := 1%nat |}.
Proof.
  apply (Menu_loop_catches_IndexError_of_callback
           log_table (raising_menu IndexError) "1" ["0"] (empty_console 0%nat)
           "Please select an option [0-1]: " 1 1
           (PyStr "Fail") (raising IndexError) 1%nat); try reflexivity.
  vm_compute. split; discriminate.
Defined.

Lemma Menu_loop_propagates_exception_of_callback_witness :
  Menu_loop log_table (raising_menu (Exception_ "Boom")) ["1"; "0"]
            (empty_console 0%nat)
  = finish (inl (Exception_ "Boom")) ["0"]
           {| stdout := [] ++ [Out_prompt "Please select an option [0-1]: "];
              world := 1%nat |}.
Proof.
  apply (Menu_loop_propagates_exception_of_callback
           log_table (raising_menu (Exception_ "Boom")) "1" ["0"]
           (empty_console 0%nat) "Please select an option [0-1]: " 1
           (PyStr "Fail") (raising (Exception_ "Boom")));
    try reflexivity; [vm_compute; split; discriminate|discriminate].
Defined.

Lemma loops_raise_AttributeError_on_foreign_item_witness :
  let c' := after (empty_console tt)
                  [Out_prompt "Please select an option [0-2]: "] in
  (callback_of (BaseMenuItem (W := unit) (PyStr "x")) = inl AttributeError ->
   Menu_loop log_table (menu_of_size 2) ["1"; "0"] (empty_console tt)
   = finish (inl AttributeError) ["0"] c')
  /\ (value_of (BaseMenuItem (W := unit) (PyStr "x")) = inl AttributeError ->
      OptionMenu_loop log_table (menu_of_size 2) ["1"; "0"] (empty_console tt)
      = finish (inl AttributeError) ["0"] c').
Proof.
  apply (loops_raise_AttributeError_on_foreign_item
           log_table (menu_of_size 2) "1" ["0"] (empty_console tt)
           "Please select an option [0-2]: " 1 (BaseMenuItem (PyStr "x")));
    try reflexivity.
  vm_compute. split; discriminate.
Defined.

Lemma Menu_display_returns_only_on_zero_witness :
  exists read line,
    ["1"; " 0 "; "2"]
    = read ++ line :: unread (Menu_display log_table ab_menu ["1"; " 0 "; "2"]
                                           (empty_console 0%nat))
    /\ Py.int line = Some 0.
Proof.
  apply (Menu_display_returns_only_on_zero
           log_table ab_menu ["1"; " 0 "; "2"] (empty_console 0%nat)).
  reflexivity.
Defined.

Lemma OptionMenu_display_returns_stored_value_or_None_witness :
  PyStr "B" = PyNone
  \/ exists d, In (OptionMenuItem d (PyStr "B")) (menu_items red_blue_menu).
Proof.
  apply (OptionMenu_display_returns_stored_value_or_None
           log_table red_blue_menu ["7"; "2"] (empty_console tt) (PyStr "B")).
  reflexivity.
Defined.

Lemma loops_wrap_negative_selection_witness :
  Menu_loop log_table ab_menu ["-1"; "0"] (empty_console 0%nat)
  = Menu_loop log_table ab_menu ["1"; "0"] (empty_console 0%nat)
  /\ OptionMenu_loop log_table ab_menu ["-1"; "0"] (empty_console 0%nat)
     = OptionMenu_loop log_table ab_menu ["1"; "0"] (empty_console 0%nat).
Proof.
  apply (loops_wrap_negative_selection
           log_table ab_menu "-1" "1" ["0"] (empty_console 0%nat)
           "Please select an option [0-2]: " (-1)); try reflexivity.
  vm_compute. split; reflexivity.
Defined.

Lemma loops_refuse_far_negative_selection_witness :
  let c' := after (empty_console 0%nat)
                  (Out_prompt "Please select an option [0-2]: "
                     :: Out_line (invalid_option_text ab_menu)
                     :: map Out_line (menu_lines ab_menu 1)) in
  Menu_loop log_table ab_menu ["-2"; "0"] (empty_console 0%nat)
  = Menu_loop log_table ab_menu ["0"] c'
  /\ OptionMenu_loop log_table ab_menu ["-2"; "0"] (empty_console 0%nat)
     = OptionMenu_loop log_table ab_menu ["0"] c'.
Proof.
  apply (loops_refuse_far_negative_selection
           log_table ab_menu "-2" ["0"] (empty_console 0%nat)
           "Please select an option [0-2]: " 1 (-2)); reflexivity.
Defined.

Lemma out_of_range_session_ends_in_EOFError_witness :
  let turn := Out_prompt "Please select an option [0-2]: "
                :: Out_line (invalid_option_text ab_menu)
                :: map Out_line (menu_lines ab_menu 1) in
  let c' := after (empty_console 0%nat)
                  (flat_map (fun _ => turn) ["5"; "3"]
                            ++ [Out_prompt "Please select an option [0-2]: "]) in
  Menu_loop log_table ab_menu ["5"; "3"] (empty_console 0%nat)
  = finish (inl EOFError) [] c'
  /\ OptionMenu_loop log_table ab_menu ["5"; "3"] (empty_console 0%nat)
     = finish (inl EOFError) [] c'.
Proof.
  apply (out_of_range_session_ends_in_EOFError
           log_table ab_menu "Please select an option [0-2]: " 1
           ["5"; "3"] (empty_console 0%nat)); try reflexivity.
  repeat constructor.
  - exists 5. split; reflexivity.
  - exists 3. split; reflexivity.
Defined.

Lemma Menu_display_exits_on_zero_witness :
  Menu_display log_table ab_menu ["0"; "1"] (empty_console 0%nat)
  = finish (inr tt) ["1"]
           (after (empty_console 0%nat)
                  (map Out_line (menu_lines ab_menu 1)
                       ++ [Out_prompt "Please select an option [0-2]: "]))
  /\ exists it, get_selection ab_menu 0 = inr it
                /\ nth_error (menu_items ab_menu) (Z.to_nat (len ab_menu - 1)) = Some it.
Proof.
  apply (Menu_display_exits_on_zero
           log_table ab_menu "0" ["1"] (empty_console 0%nat)
           "Please select an option [0-2]: " 1); reflexivity.
Defined.

Lemma BasicOptionMenu_selects_value_of_pair_witness :
  let kvs := [(PyStr "Red", PyStr "R"); (PyStr "Blue", PyStr "B")] in
  let self := add_items (OptionMenu_init (W := unit) PyNone)
                        (map (fun kv => OptionMenuItem (fst kv) (snd kv)) kvs) in
  BasicOptionMenu_init log_table PyNone (Some kvs) ["2"; "1"] (empty_console tt)
  = finish (inr (self, PyStr "B")) ["1"]
           (after (empty_console tt)
                  (map Out_line (menu_lines self 1)
                       ++ [Out_prompt ("Please select an option [0-"
                                         ++ Py.str_of_int (Z.of_nat (List.length kvs))
                                         ++ "]: ")%string]))
  /\ menu_items self = map (fun kv => OptionMenuItem (fst kv) (snd kv)) kvs.
Proof.
  apply (BasicOptionMenu_selects_value_of_pair
           log_table PyNone
           [(PyStr "Red", PyStr "R"); (PyStr "Blue", PyStr "B")]
           "2" ["1"] (empty_console tt) 1 1 (PyStr "Blue") (PyStr "B"));
    reflexivity.
Defined.

Lemma BasicMenu_runs_callback_of_pair_witness :
  let kvs := [(PyStr "A", incrementCounter); (PyStr "B", incrementCounter)] in
  let self := add_items (Menu_init (PyStr "Counter"))
                        (map (fun kv => MenuItem (fst kv) (snd kv)) kvs) in
  let prompt := Out_prompt ("Please select an option [0-"
                              ++ Py.str_of_int (Z.of_nat (List.length kvs))
                              ++ "]: ")%string in
  BasicMenu_init log_table (PyStr "Counter") (Some kvs) ["2"; "0"; "1"]
                 (empty_console 4%nat)
  = finish (inr self) ["1"]
           {| stdout := [] ++ map Out_line (menu_lines self 1) ++ [prompt]
                           ++ map Out_line (menu_lines self 1) ++ [prompt];
              world := 5%nat |}
  /\ menu_items self = map (fun kv => MenuItem (fst kv) (snd kv)) kvs.
Proof.
  apply (BasicMenu_runs_callback_of_pair
           log_table (PyStr "Counter")
           [(PyStr "A", incrementCounter); (PyStr "B", incrementCounter)]
           "2" "0" ["1"] (empty_console 4%nat) 1 1
           (PyStr "B") incrementCounter PyNone 5%nat); reflexivity.
Defined.
